(** * Blob image downloader: capture loop, collectors and naming

    A shallow embedding of [blob_image_downloader.py].  The class
    [BlobImageInterceptor] keeps a set of content hashes and a counter; its
    two collectors ([capture_network_images], [capture_blob_images]) are run
    by [scroll_and_capture] once per scroll iteration and once more after the
    loop.  Python exceptions are modelled by a state-and-exception monad in
    which the state reached before a [raise] is kept, as in Python.

    The libraries the script calls (hashlib, base64, PIL) and the browsed
    page are not part of the script: the former are the fields of the class
    [Platform], the latter the record [Page]. *)

From Stdlib Require Import ZArith Lia Ascii String.
From Stdlib.Strings Require Import Byte.
From stdpp Require Import base tactics option list gmap strings pretty.
From Equations Require Import Equations.

Local Open Scope Z_scope.
Local Open Scope nat_scope.

(** ** Python string operations used by the script *)

(** [s.startswith(p)] *)
Definition startswith (p s : string) : bool := String.prefix p s.

(** [sub in s] for two [str] values *)
Fixpoint contains (sub s : string) : bool :=
  startswith sub s ||
  match s with
  | EmptyString => false
  | String _ s' => contains sub s'
  end.

(** [s.split(sep)] for a one-character separator *)
Fixpoint split (sep : ascii) (s : string) : list string :=
  match s with
  | EmptyString => [EmptyString]
  | String c s' =>
      if Ascii.eqb c sep then EmptyString :: split sep s'
      else match split sep s' with
           | [] => [String c EmptyString]
           | w :: ws => String c w :: ws
           end
  end.

(** [s.endswith(p)] for a one-character [p] *)
Fixpoint endswith_char (c : ascii) (s : string) : bool :=
  match s with
  | EmptyString => false
  | String a EmptyString => Ascii.eqb a c
  | String _ s' => endswith_char c s'
  end.

(** [os.path.join(a, b)] on a POSIX system, for two components *)
Definition os_path_join (a b : string) : string :=
  if startswith "/" b then b
  else if String.eqb a "" || endswith_char "/" a then a +:+ b
  else a +:+ "/" +:+ b.

(** ** Data: network exchanges, blob buffer entries, saved files *)

(** [request.response]: headers (only Content-Type is read) and body *)
Record Response := mkResponse {
  content_type_header : option string;
  body : list byte
}.

(** an entry of [driver.requests]; [response] is [None] while unanswered *)
Record Request := mkRequest {
  response : option Response
}.

(** [request.response.headers.get('Content-Type', '')] *)
Definition headers_get_content_type (r : Response) : string :=
  default "" (content_type_header r).

(** an entry pushed on [window.interceptedBlobs] by the injected hook;
    [data] is [reader.result] (a data URL, or null), [type] is [blob.type].
    The fields url, size and timestamp are never read by the collector. *)
Record Blob := mkBlob {
  data : option string;
  type : string
}.

Inductive Source := network_image | blob_image.

Definition source_tag (s : Source) : string :=
  match s with
  | network_image => "network_image"
  | blob_image => "blob_image"
  end.

(** One successful [image.save(filepath)].  [filepath] and [filename] are the
    strings the collector built; the other fields record what they were built
    from. *)
Record SavedFile := mkSavedFile {
  filepath : string;
  filename : string;
  source : Source;
  counter : nat;
  image_hash : string;
  declared_type : string;
  ext : string;
  payload : list byte
}.

(** The mutable state the run touches: the two fields of the interceptor
    object, the two driver-side containers the collectors read, the files
    written so far (oldest first) and the number of collection passes made
    so far (a ghost counter, read only by the page model). *)
Record World := mkWorld {
  captured_blobs : gset string;
  image_counter : nat;
  requests : list Request;
  interceptedBlobs : list Blob;
  files : list SavedFile;
  passes : nat
}.

(** The local frame of a collector: the world and [captured_count]. *)
Record Frame := mkFrame {
  world : World;
  captured_count : nat
}.

Definition with_world (f : World → World) (fr : Frame) : Frame :=
  mkFrame (f (world fr)) (captured_count fr).

Definition add_hash (h : string) (w : World) : World :=
  mkWorld ({[h]} ∪ captured_blobs w) (image_counter w) (requests w)
          (interceptedBlobs w) (files w) (passes w).

Definition write_file (f : SavedFile) (w : World) : World :=
  mkWorld (captured_blobs w) (image_counter w) (requests w)
          (interceptedBlobs w) (files w ++ [f]) (passes w).

Definition incr_image_counter (w : World) : World :=
  mkWorld (captured_blobs w) (image_counter w + 1) (requests w)
          (interceptedBlobs w) (files w) (passes w).

Definition clear_interceptedBlobs (w : World) : World :=
  mkWorld (captured_blobs w) (image_counter w) (requests w)
          [] (files w) (passes w).

Definition incr_captured_count (fr : Frame) : Frame :=
  mkFrame (world fr) (captured_count fr + 1).

(** ** Exceptions and state *)

Module Py.

Inductive outcome (A : Type) : Type :=
| Normal (a : A)
| Raised.
Arguments Normal {A} a.
Arguments Raised {A}.

Definition M (S A : Type) : Type := S → S * outcome A.

Section Ops.
Context {S : Type}.

Definition ret {A} (a : A) : M S A := λ s, (s, Normal a).

Definition bind {A B} (m : M S A) (k : A → M S B) : M S B :=
  λ s, match m s with
       | (s', Normal a) => k a s'
       | (s', Raised) => (s', Raised)
       end.

Definition raise {A} : M S A := λ s, (s, Raised).

Definition gets {A} (f : S → A) : M S A := λ s, (s, Normal (f s)).

Definition modify (f : S → S) : M S unit := λ s, (f s, Normal tt).

(** [try: m except Exception: h] *)
Definition try_except {A} (m : M S A) (h : M S A) : M S A :=
  λ s, match m s with
       | (s', Normal a) => (s', Normal a)
       | (s', Raised) => h s'
       end.

(** [for x in xs: body x] *)
Fixpoint for_each {X} (xs : list X) (body : X → M S unit) : M S unit :=
  match xs with
  | [] => ret tt
  | x :: xs' => bind (body x) (λ _, for_each xs' body)
  end.

(** a library call that either returns or raises *)
Definition of_option {A} (o : option A) : M S A :=
  match o with
  | Some a => ret a
  | None => raise
  end.

Definition guard (b : bool) : M S unit :=
  if b then ret tt else raise.
End Ops.

End Py.

Declare Scope py_scope.
Delimit Scope py_scope with py.
Notation "'let*' x ':=' m 'in' k" := (Py.bind m (λ x, k))
  (at level 10, x name, m at level 100, k at level 200) : py_scope.
Notation "m ;;; k" := (Py.bind m (λ _, k))
  (at level 100, right associativity) : py_scope.
Local Open Scope py_scope.

(** ** The libraries the script calls *)

Class Platform := {
  (** [hashlib.md5(b).hexdigest()] *)
  md5_hexdigest : list byte → string;
  (** [base64.b64decode(s)]; [None] when it raises *)
  b64decode : string → option (list byte);
  (** whether [Image.open(BytesIO(b))] returns (rather than raises) *)
  Image_open : list byte → bool;
  (** whether saving the image decoded from [b] under a path returns;
      a save that raises leaves no file *)
  Image_save : list byte → string → bool
}.

Section Collectors.

Context `{Platform}.
Variable output_dir : string.

(** *** [capture_network_images] *)

(** the body of the [try] block, lines 155-181 *)
Definition network_try (resp : Response) : Py.M Frame unit :=
  let image_hash := md5_hexdigest (body resp) in
  let* seen := Py.gets (λ fr, bool_decide (image_hash ∈ captured_blobs (world fr))) in
  if seen then Py.ret tt
  else
    Py.modify (with_world (add_hash image_hash));;;
    Py.guard (Image_open (body resp));;;
    let content_type := headers_get_content_type resp in
    let ext :=
      if contains "png" content_type then "png"
      else if contains "gif" content_type then "gif"
      else if contains "webp" content_type then "webp"
      else "jpg" in
    let* n := Py.gets (λ fr, image_counter (world fr)) in
    let filename :=
      "network_image_" +:+ pretty n +:+ "_" +:+
      String.substring 0 8 image_hash +:+ "." +:+ ext in
    let filepath := os_path_join output_dir filename in
    Py.guard (Image_save (body resp) filepath);;;
    Py.modify (with_world (write_file
      (mkSavedFile filepath filename network_image n image_hash
                   content_type ext (body resp))));;;
    Py.modify (with_world incr_image_counter);;;
    Py.modify incr_captured_count.

(** the test of line 153 *)
Definition is_image_response (request : Request) : option Response :=
  match response request with
  | Some resp =>
      if startswith "image/" (headers_get_content_type resp)
      then Some resp else None
  | None => None
  end.

(** one turn of the [for] loop of line 151 *)
Definition network_iteration (request : Request) : Py.M Frame unit :=
  match is_image_response request with
  | Some resp => Py.try_except (network_try resp) (Py.ret tt)
  | None => Py.ret tt
  end.

Definition capture_network_images_body : Py.M Frame unit :=
  let* reqs := Py.gets (λ fr, requests (world fr)) in
  Py.for_each reqs network_iteration.

Definition capture_network_images (w : World) : World * nat :=
  let fr := fst (capture_network_images_body (mkFrame w 0)) in
  (world fr, captured_count fr).

(** *** [capture_blob_images] *)

(** the test of line 197: [blob['data']] is truthy and starts with
    ["data:image"] *)
Definition is_image_data_url (blob : Blob) : option string :=
  match data blob with
  | Some d =>
      if negb (String.eqb d "") && startswith "data:image" d
      then Some d else None
  | None => None
  end.

(** one turn of the [for] loop of line 196; nothing here catches *)
Definition blob_iteration (blob : Blob) : Py.M Frame unit :=
  match is_image_data_url blob with
  | None => Py.ret tt
  | Some d =>
      let* data := Py.of_option (split "," d !! 1) in
      let* image_data := Py.of_option (b64decode data) in
      let image_hash := md5_hexdigest image_data in
      let* seen := Py.gets (λ fr, bool_decide (image_hash ∈ captured_blobs (world fr))) in
      if seen then Py.ret tt
      else
        Py.modify (with_world (add_hash image_hash));;;
        Py.guard (Image_open image_data);;;
        let mime_type := type blob in
        let ext :=
          if contains "png" mime_type then "png"
          else if contains "gif" mime_type then "gif"
          else if contains "webp" mime_type then "webp"
          else "jpg" in
        let* n := Py.gets (λ fr, image_counter (world fr)) in
        let filename :=
          "blob_image_" +:+ pretty n +:+ "_" +:+
          String.substring 0 8 image_hash +:+ "." +:+ ext in
        let filepath := os_path_join output_dir filename in
        Py.guard (Image_save image_data filepath);;;
        Py.modify (with_world (write_file
          (mkSavedFile filepath filename blob_image n image_hash
                       mime_type ext image_data)));;;
        Py.modify (with_world incr_image_counter);;;
        Py.modify incr_captured_count
  end.

(** the [try] block of lines 193-231: read the buffer, process every
    entry, clear the buffer *)
Definition capture_blob_images_try : Py.M Frame unit :=
  let* blobs := Py.gets (λ fr, interceptedBlobs (world fr)) in
  Py.for_each blobs blob_iteration;;;
  Py.modify (with_world clear_interceptedBlobs).

(** the handler of line 233 only prints *)
Definition capture_blob_images_body : Py.M Frame unit :=
  Py.try_except capture_blob_images_try (Py.ret tt).

Definition capture_blob_images (w : World) : World * nat :=
  let fr := fst (capture_blob_images_body (mkFrame w 0)) in
  (world fr, captured_count fr).

End Collectors.

(** ** The browsed page *)

(** What the page did since the previous collection pass: exchanges added
    to [driver.requests], entries pushed on [window.interceptedBlobs]. *)
Record Activity := mkActivity {
  new_requests : list Request;
  new_blobs : list Blob
}.

(** [activity i] precedes collection pass [i] (counted from 0);
    [scrollHeight i] is [document.body.scrollHeight] as read on line 281 in
    the iteration whose [scroll_count] is [i]; [initial_scrollHeight] is the
    reading of line 257. *)
Record Page := mkPage {
  activity : nat → Activity;
  scrollHeight : nat → Z;
  initial_scrollHeight : Z
}.

Definition page_activity (pg : Page) (w : World) : World :=
  let a := activity pg (passes w) in
  mkWorld (captured_blobs w) (image_counter w)
          (requests w ++ new_requests a)
          (interceptedBlobs w ++ new_blobs a)
          (files w) (passes w).

Definition count_pass (w : World) : World :=
  mkWorld (captured_blobs w) (image_counter w) (requests w)
          (interceptedBlobs w) (files w) (passes w + 1).

(** ** [scroll_and_capture] *)

Definition HEIGHT_PER_SCROLL : Z := 1000.

(** the local variables of [scroll_and_capture], with the world *)
Record Loop := mkLoop {
  loop_world : World;
  last_height : Z;
  scroll_count : nat;
  scroll_height : Z
}.

Definition inspect {A} (a : A) : {b : A | a = b} := exist _ a eq_refl.

Section Run.

Context `{Platform}.
Variable output_dir : string.
Variable pg : Page.

(** a collection pass: both collectors, network first (lines 267-268
    and 291-292) *)
Definition collection_pass (w : World) : World :=
  let w0 := page_activity pg w in
  let '(w1, network_count) := capture_network_images output_dir w0 in
  let '(w2, blob_count) := capture_blob_images output_dir w1 in
  count_pass w2.

(** the [while] loop of lines 263-287; [max_scrolls] is a number of
    scrolls (150 in the configuration, 10 by default), the measure
    [max_scrolls - scroll_count] decreases with every completed turn *)
Equations? scroll_loop (max_scrolls : nat) (st : Loop) : Loop
  by wf (max_scrolls - scroll_count st) lt :=
  scroll_loop max_scrolls st with inspect (scroll_count st <? max_scrolls) => {
    | exist _ true Hlt =>
        let w := collection_pass (loop_world st) in
        let scroll_height := (scroll_height st + HEIGHT_PER_SCROLL)%Z in
        let last_height := scrollHeight pg (scroll_count st) in
        if (scroll_height >=? last_height)%Z
        then mkLoop w last_height (scroll_count st) scroll_height
        else scroll_loop max_scrolls
               (mkLoop w last_height (scroll_count st + 1) scroll_height)
    | exist _ false _ => st }.
Proof. apply Nat.ltb_lt in Hlt. simpl. lia. Qed.

(** [BlobImageInterceptor(...)] followed by [setup_driver()]: nothing
    captured, nothing requested, an empty hook buffer *)
Definition fresh_world : World := mkWorld ∅ 0 [] [] [] 0.

Definition scroll_and_capture (max_scrolls : nat) (w : World) : Loop :=
  let st := scroll_loop max_scrolls (mkLoop w (initial_scrollHeight pg) 0 0%Z) in
  mkLoop (collection_pass (loop_world st))
         (last_height st) (scroll_count st) (scroll_height st).

End Run.

(** ** The naming contract, in the words of the specification *)

(** "content type containing png -> .png, gif -> .gif, webp -> .webp,
    anything else -> .jpg" *)
Definition spec_extension (content_type : string) : string :=
  if contains "png" content_type then "png"
  else if contains "gif" content_type then "gif"
  else if contains "webp" content_type then "webp"
  else "jpg".

Definition spec_extensions : list string := ["jpg"; "png"; "gif"; "webp"].

(** "<source>_<counter>_<hash8>.<ext>" *)
Definition spec_filename (src : Source) (n : nat) (h e : string) : string :=
  source_tag src +:+ "_" +:+ pretty n +:+ "_" +:+
  String.substring 0 8 h +:+ "." +:+ e.

(** a string of decimal digits, as [str(n)] is for a counter *)
Fixpoint decimal (s : string) : Prop :=
  match s with
  | EmptyString => True
  | String c s' => is_Some (Ascii.is_nat c) ∧ decimal s'
  end.

(** ** What one loop turn of a collector can do to the world *)

(** the three updates of a successful save, in the order of the source *)
Definition save (f : SavedFile) (w : World) : World :=
  incr_image_counter (write_file f (add_hash (image_hash f) w)).

Section Effects.

Context `{Platform}.
Variable output_dir : string.

(** the file the network collector builds for [resp] at counter [n] *)
Definition network_file (n : nat) (resp : Response) : SavedFile :=
  let h := md5_hexdigest (body resp) in
  let ct := headers_get_content_type resp in
  let name := spec_filename network_image n h (spec_extension ct) in
  mkSavedFile (os_path_join output_dir name) name network_image n h ct
              (spec_extension ct) (body resp).

(** the file the blob collector builds for [blob] at counter [n], once
    its payload [image_data] is decoded *)
Definition blob_file (n : nat) (blob : Blob) (image_data : list byte) : SavedFile :=
  let h := md5_hexdigest image_data in
  let name := spec_filename blob_image n h (spec_extension (type blob)) in
  mkSavedFile (os_path_join output_dir name) name blob_image n h (type blob)
              (spec_extension (type blob)) image_data.

(** where a saved file comes from: an exchange that passed the test of
    line 153, or a buffer entry that passed the test of line 197 and whose
    payload was extracted and decoded *)
Inductive file_origin (f : SavedFile) : Prop :=
| from_network request resp :
    is_image_response request = Some resp →
    f = network_file (counter f) resp →
    file_origin f
| from_blob blob d b64 image_data :
    is_image_data_url blob = Some d →
    split "," d !! 1 = Some b64 →
    b64decode b64 = Some image_data →
    f = blob_file (counter f) blob image_data →
    file_origin f.

(** a saved file agrees with the naming contract and with its payload *)
Record file_ok (f : SavedFile) : Prop := {
  file_ok_origin : file_origin f;
  file_ok_name : filename f = spec_filename (source f) (counter f) (image_hash f) (ext f);
  file_ok_path : filepath f = os_path_join output_dir (filename f);
  file_ok_ext : ext f = spec_extension (declared_type f);
  file_ok_hash : image_hash f = md5_hexdigest (payload f)
}.

Inductive item_effect (w : World) : World → Prop :=
| effect_none : item_effect w w
| effect_hash h :
    h ∉ captured_blobs w →
    item_effect w (add_hash h w)
| effect_save f :
    image_hash f ∉ captured_blobs w →
    counter f = image_counter w →
    file_ok f →
    item_effect w (save f w).

(** what a run can do to the world: collector turns, and changes on the
    driver side (exchanges, hook buffer, pass count) *)
Inductive evolves (w : World) : World → Prop :=
| evolves_refl : evolves w w
| evolves_item w1 w2 :
    evolves w w1 → item_effect w1 w2 → evolves w w2
| evolves_driver w1 rq bl ps :
    evolves w w1 →
    evolves w (mkWorld (captured_blobs w1) (image_counter w1) rq bl (files w1) ps).

(** the invariant of the interceptor and its output directory *)
Record Inv (w : World) : Prop := {
  inv_files : Forall file_ok (files w);
  inv_counters : counter <$> files w = seq 0 (image_counter w);
  inv_recorded : ∀ f, f ∈ files w → image_hash f ∈ captured_blobs w;
  inv_hashes : NoDup (image_hash <$> files w)
}.

End Effects.

(** the counter is the number of files written so far, the files carry
    the counters 0, 1, 2, ... in save order, and each name is built from
    its file's counter *)
Definition counter_counts_files (w : World) : Prop :=
  image_counter w = length (files w) ∧
  counter <$> files w = seq 0 (length (files w)) ∧
  Forall (λ f, filename f =
               spec_filename (source f) (counter f) (image_hash f) (ext f))
         (files w).

(** ** A sample platform and sample pages, for the concrete runs *)

Global Instance byte_eq_decision : EqDecision byte := Byte.byte_eq_dec.

Definition bytes (s : string) : list byte := String.list_byte_of_string s.

(** Every digest starts with the same 8 characters, every payload but
    ["bad"] decodes, base64 text stands for itself, ["!"] is not base64. *)
Definition sample_platform : Platform := {|
  md5_hexdigest b := "deadbeef" +:+ pretty (foldr (λ x acc, (Byte.to_N x + acc)%N) 0%N b);
  b64decode s := if String.eqb s "!" then None else Some (bytes s);
  Image_open b := negb (bool_decide (b = bytes "bad"));
  Image_save b p := true
|}.

Definition exchange (content_type body : string) : Request :=
  mkRequest (Some (mkResponse (Some content_type) (bytes body))).

Definition quiet : Activity := mkActivity [] [].

(** an SVG blob: a data URL of an image type that PIL cannot open *)
Definition svg_blob : Blob :=
  mkBlob (Some "data:image/svg+xml;base64,bad") "image/svg+xml".

Definition gif_blob : Blob :=
  mkBlob (Some "data:image/gif;base64,B3") "image/gif".

Definition text_blob : Blob :=
  mkBlob (Some "data:text/plain;base64,aGk=") "text/plain".

(** A page 2500 pixels high.  Before the first pass it has answered four
    requests (one of them not an image, one undecodable) and created three
    blobs (one a copy of a network image, one undecodable); before the
    second pass the first image is fetched again. *)
Definition sample_page : Page :=
  mkPage (λ i, match i with
               | 0 => mkActivity
                        [exchange "image/png" "B1"; exchange "text/html" "x";
                         exchange "image/png" "bad"; exchange "image/webp" "B2"]
                        [mkBlob (Some "data:image/png;base64,B1") "image/png";
                         svg_blob; gif_blob]
               | 1 => mkActivity [exchange "image/png" "B1"] []
               | _ => quiet
               end)
         (λ _, 2500%Z) 0%Z.

(** A page 500 pixels high that creates an SVG blob and then a GIF blob
    after the first pass. *)
Definition late_svg_page : Page :=
  mkPage (λ i, match i with
               | 1 => mkActivity [] [svg_blob; gif_blob]
               | _ => quiet
               end)
         (λ _, 500%Z) 0%Z.

(** A page that grows by a screen with every scroll, for ever. *)
Definition endless_page : Page :=
  mkPage (λ _, quiet) (λ i, 1000 * (Z.of_nat i + 2))%Z 0%Z.

(** an image exchange whose body PIL cannot open, and its response *)
Definition bad_response : Response := mkResponse (Some "image/png") (bytes "bad").
Definition bad_request : Request := mkRequest (Some bad_response).

(** the frame of a collector entered on the fresh world *)
Definition fresh_frame : Frame := mkFrame fresh_world 0.

(** the world with the given exchanges and hook buffer, nothing captured *)
Definition world_with (reqs : list Request) (blobs : list Blob) : World :=
  mkWorld ∅ 0 reqs blobs [] 0.

(** ** Measures used by the further properties *)

(** between two frames of one collector call, [captured_count], the number
    of files and the image counter have advanced by the same amount *)
Definition counts_from (fr fr' : Frame) : Prop :=
  ∃ n, captured_count fr' = captured_count fr + n ∧
       length (files (world fr')) = length (files (world fr)) + n ∧
       image_counter (world fr') = image_counter (world fr) + n.

(** the world only grows: hashes are added, files appended, the counter
    advanced *)
Definition grows (w w' : World) : Prop :=
  captured_blobs w ⊆ captured_blobs w' ∧
  files w `prefix_of` files w' ∧
  image_counter w ≤ image_counter w'.

(** a string without a comma *)
Fixpoint comma_free (s : string) : Prop :=
  match s with
  | EmptyString => True
  | String c s' => c ≠ ","%char ∧ comma_free s'
  end.

(** further sample entries *)
Definition unanswered_request : Request := mkRequest None.
Definition html_request : Request := exchange "text/html" "<html>".
Definition comma_less_blob : Blob := mkBlob (Some "data:image/png") "image/png".
Definition png_blob : Blob := mkBlob (Some "data:image/png;base64,B1") "image/png".

(** a log with a PNG, an undecodable body and a page that is not an image *)
Definition sample_log_world : World :=
  world_with [exchange "image/png" "B1"; bad_request; html_request] [].

Definition png_response : Response := mkResponse (Some "image/png") (bytes "B1").

(** ** [main], [setup_driver] and [close] *)

(** the exception classes the handlers of [main] tell apart:
    [KeyboardInterrupt], the subclasses of [Exception], and the other
    subclasses of [BaseException] *)
Inductive exn := KeyboardInterrupt | Exception | BaseException.

(** the lines [main] and [close] print *)
Inductive Message := Interrupted_by_user | Error_message | Browser_closed.

(** the constants of lines 27 and 30 *)
Definition OUTPUT_DIR : string := "./cache".
Definition MAX_SCROLLS : nat := 150.

(** The process: the world of the interceptor, whether the interceptor has
    its [driver] attribute, whether the Chrome session runs, how many times
    [driver.quit()] was called, and what [main] and [close] printed. *)
Record Process := mkProcess {
  proc_world : World;
  has_driver : bool;
  browser_running : bool;
  quit_calls : nat;
  console : list Message
}.

(** What the calls inside the [try] block of [main] do in one execution:
    whether [wire_webdriver.Chrome(...)] raises, whether the driver raises
    inside [scroll_and_capture] (and the world reached by then), whether
    [input(...)] raises. *)
Record Execution := mkExecution {
  chrome_raises : option exn;
  capture_raises : option (exn * World);
  input_raises : option exn
}.

Section Main.

Context `{Platform}.
Variable pg : Page.
Variable ex : Execution.

(** lines 90-97: the attribute is assigned only when the constructor
    returns *)
Definition setup_driver (p : Process) : Process * option exn :=
  match chrome_raises ex with
  | Some e => (p, Some e)
  | None => (mkProcess (proc_world p) true true (quit_calls p) (console p), None)
  end.

(** lines 299-303 *)
Definition close (p : Process) : Process :=
  if has_driver p
  then mkProcess (proc_world p) (has_driver p) false (quit_calls p + 1)
                 (console p ++ [Browser_closed])
  else p.

(** the [try] block, lines 316-327 *)
Definition main_try (p : Process) : Process * option exn :=
  match setup_driver p with
  | (p1, Some e) => (p1, Some e)
  | (p1, None) =>
      match capture_raises ex with
      | Some (e, w) =>
          (mkProcess w (has_driver p1) (browser_running p1) (quit_calls p1)
                     (console p1), Some e)
      | None =>
          let w := loop_world (scroll_and_capture OUTPUT_DIR pg MAX_SCROLLS
                                 (proc_world p1)) in
          let p2 := mkProcess w (has_driver p1) (browser_running p1)
                              (quit_calls p1) (console p1) in
          match input_raises ex with
          | Some e => (p2, Some e)
          | None => (p2, None)
          end
      end
  end.

Definition print (m : Message) (p : Process) : Process :=
  mkProcess (proc_world p) (has_driver p) (browser_running p) (quit_calls p)
            (console p ++ [m]).

(** lines 306-334: the interceptor is created, the [try] block runs, the two
    handlers print, [finally] closes; the result is the exception that
    leaves [main], if any *)
Definition main : Process * option exn :=
  let p0 := mkProcess fresh_world false false 0 [] in
  let '(p1, raised) := main_try p0 in
  let '(p2, leaving) :=
    match raised with
    | Some KeyboardInterrupt => (print Interrupted_by_user p1, None)
    | Some Exception => (print Error_message p1, None)
    | Some BaseException => (p1, Some BaseException)
    | None => (p1, None)
    end in
  (close p2, leaving).

End Main.

(** * Properties *)

(** ** The collectors, turn by turn *)

Section CollectorFacts.

Context `{Platform}.
Variable output_dir : string.

(** [network_try] in closed form: skipped when seen, otherwise the hash
    is recorded and the rest depends on PIL. *)
Lemma network_try_run resp fr :
  network_try output_dir resp fr =
  let h := md5_hexdigest (body resp) in
  let f := network_file output_dir (image_counter (world fr)) resp in
  if bool_decide (h ∈ captured_blobs (world fr)) then (fr, Py.Normal tt)
  else if Image_open (body resp) && Image_save (body resp) (filepath f)
       then (incr_captured_count (with_world (save f) fr), Py.Normal tt)
       else (with_world (add_hash h) fr, Py.Raised).
Proof.
  unfold network_try, Py.bind, Py.gets, Py.modify, Py.guard, Py.ret, Py.raise.
  cbn zeta. destruct (bool_decide _); [done|].
  destruct (Image_open (body resp)); [|done]. cbn.
  destruct (Image_save _ _); done.
Qed.

Lemma blob_iteration_run blob fr :
  blob_iteration output_dir blob fr =
  match is_image_data_url blob with
  | None => (fr, Py.Normal tt)
  | Some d =>
      match split "," d !! 1 with
      | None => (fr, Py.Raised)
      | Some b64 =>
          match b64decode b64 with
          | None => (fr, Py.Raised)
          | Some image_data =>
              let h := md5_hexdigest image_data in
              let f := blob_file output_dir (image_counter (world fr)) blob image_data in
              if bool_decide (h ∈ captured_blobs (world fr)) then (fr, Py.Normal tt)
              else if Image_open image_data && Image_save image_data (filepath f)
                   then (incr_captured_count (with_world (save f) fr), Py.Normal tt)
                   else (with_world (add_hash h) fr, Py.Raised)
          end
      end
  end.
Proof.
  unfold blob_iteration. destruct (is_image_data_url blob) as [d|]; [|done].
  unfold Py.bind, Py.of_option, Py.gets, Py.modify, Py.guard, Py.ret, Py.raise.
  destruct (split "," d !! 1) as [b64|]; [|done].
  destruct (b64decode b64) as [image_data|]; [|done].
  cbn zeta. destruct (bool_decide _); [done|].
  destruct (Image_open image_data); [|done]. cbn.
  destruct (Image_save _ _); done.
Qed.

End CollectorFacts.

(** ** Runs preserve the invariant *)

Section Invariant.

Context `{Platform}.
Variable output_dir : string.

Lemma network_file_ok n request resp :
  is_image_response request = Some resp →
  file_ok output_dir (network_file output_dir n resp).
Proof. intros Himg. split; try done. by eapply from_network. Qed.

Lemma blob_file_ok n blob d b64 image_data :
  is_image_data_url blob = Some d →
  split "," d !! 1 = Some b64 →
  b64decode b64 = Some image_data →
  file_ok output_dir (blob_file output_dir n blob image_data).
Proof. intros Hurl Hsplit Hdec. split; try done. by eapply from_blob. Qed.

Lemma evolves_trans w1 w2 w3 :
  evolves output_dir w1 w2 → evolves output_dir w2 w3 → evolves output_dir w1 w3.
Proof.
  intros H12 H23. induction H23.
  - done.
  - by eapply evolves_item.
  - by apply evolves_driver.
Qed.

Lemma evolves_step w1 w2 : item_effect output_dir w1 w2 → evolves output_dir w1 w2.
Proof. intros; eapply evolves_item; [apply evolves_refl|done]. Qed.

(** a turn of the network collector never raises and has an item effect *)
Lemma network_iteration_effect request fr :
  ∃ fr', network_iteration output_dir request fr = (fr', Py.Normal tt) ∧
         item_effect output_dir (world fr) (world fr').
Proof.
  unfold network_iteration.
  destruct (is_image_response request) as [resp|] eqn:Himg.
  2:{ eexists; split; [done|constructor]. }
  unfold Py.try_except. rewrite network_try_run. cbn zeta.
  case_bool_decide as Hseen.
  { eexists; split; [done|constructor]. }
  destruct (_ && _).
  - eexists; split; [done|]. cbn.
    apply effect_save; [done|done|by apply (network_file_ok _ request)].
  - eexists; split; [done|]. by apply effect_hash.
Qed.

(** a turn of the blob collector has an item effect, raising or not *)
Lemma blob_iteration_effect blob fr :
  item_effect output_dir (world fr) (world (blob_iteration output_dir blob fr).1).
Proof.
  rewrite blob_iteration_run.
  destruct (is_image_data_url blob) as [d|] eqn:Hurl; [|constructor].
  destruct (split "," d !! 1) as [b64|] eqn:Hsplit; [|constructor].
  destruct (b64decode b64) as [image_data|] eqn:Hdec; [|constructor].
  cbn zeta. case_bool_decide as Hseen; [constructor|].
  destruct (_ && _); cbn.
  - apply effect_save; [done|done|by apply (blob_file_ok _ blob d b64)].
  - by apply effect_hash.
Qed.

Lemma network_loop_effects reqs fr :
  ∃ fr', Py.for_each reqs (network_iteration output_dir) fr = (fr', Py.Normal tt) ∧
         rtc (item_effect output_dir) (world fr) (world fr').
Proof.
  revert fr. induction reqs as [|r reqs IH]; intros fr.
  - by eexists.
  - destruct (network_iteration_effect r fr) as (fr1 & Hrun & Heff).
    destruct (IH fr1) as (fr2 & Hrest & Hev).
    exists fr2. split.
    + cbn. unfold Py.bind. by rewrite Hrun.
    + by eapply rtc_l.
Qed.

Lemma blob_loop_effects blobs fr :
  rtc (item_effect output_dir) (world fr)
      (world (Py.for_each blobs (blob_iteration output_dir) fr).1).
Proof.
  revert fr. induction blobs as [|b blobs IH]; intros fr; [done|].
  cbn. unfold Py.bind.
  pose proof (blob_iteration_effect b fr) as Heff.
  destruct (blob_iteration output_dir b fr) as [fr1 [[]|]]; cbn in *.
  - eapply rtc_l; [done|apply IH].
  - by apply rtc_once.
Qed.

Lemma capture_network_images_effects w :
  rtc (item_effect output_dir) w (capture_network_images output_dir w).1.
Proof.
  unfold capture_network_images, capture_network_images_body, Py.bind, Py.gets.
  cbn. by destruct (network_loop_effects (requests w) (mkFrame w 0)) as (fr' & -> & Hev).
Qed.

(** the blob collector: item effects, then the buffer is cleared or left *)
Lemma capture_blob_images_effects w :
  ∃ w1, rtc (item_effect output_dir) w w1 ∧
        ((capture_blob_images output_dir w).1 = clear_interceptedBlobs w1 ∨
         (capture_blob_images output_dir w).1 = w1).
Proof.
  unfold capture_blob_images, capture_blob_images_body, capture_blob_images_try.
  unfold Py.try_except, Py.bind, Py.gets, Py.modify, Py.ret. cbn.
  pose proof (blob_loop_effects (interceptedBlobs w) (mkFrame w 0)) as Hev.
  destruct (Py.for_each _ _ _) as [fr1 [[]|]]; cbn in *; eauto.
Qed.

(** item effects leave the driver side and the pass count alone *)
Lemma item_effects_frame w w' :
  rtc (item_effect output_dir) w w' →
  requests w' = requests w ∧ interceptedBlobs w' = interceptedBlobs w ∧
  passes w' = passes w.
Proof.
  induction 1 as [|w1 w2 w3 Hstep _ IH]; [done|].
  destruct IH as (-> & -> & ->). by destruct Hstep.
Qed.

Lemma item_effects_evolves w w' :
  rtc (item_effect output_dir) w w' → evolves output_dir w w'.
Proof.
  intros Hrtc. induction Hrtc as [|w1 w2 w3 Hstep _ IH]; [constructor|].
  eapply evolves_trans; [by apply evolves_step|done].
Qed.

Lemma collection_pass_evolves pg w :
  evolves output_dir w (collection_pass output_dir pg w).
Proof.
  unfold collection_pass.
  pose proof (capture_network_images_effects (page_activity pg w)) as Hnet.
  destruct (capture_network_images _ _) as [w1 network_count]; cbn in Hnet.
  destruct (capture_blob_images_effects w1) as (w2 & Hblob & Hclear).
  destruct (capture_blob_images _ _) as [w3 blob_count]; cbn in Hclear.
  assert (evolves output_dir w w2) as Hw2.
  { eapply evolves_trans; [|by apply item_effects_evolves].
    eapply evolves_trans; [|by apply item_effects_evolves].
    unfold page_activity. apply evolves_driver, evolves_refl. }
  unfold count_pass. destruct Hclear as [-> | ->].
  - by apply evolves_driver, evolves_driver.
  - by apply evolves_driver.
Qed.

Lemma collection_pass_passes pg w :
  passes (collection_pass output_dir pg w) = passes w + 1.
Proof.
  unfold collection_pass.
  pose proof (capture_network_images_effects (page_activity pg w)) as Hnet.
  destruct (capture_network_images _ _) as [w1 network_count]; cbn in Hnet.
  destruct (capture_blob_images_effects w1) as (w2 & Hblob & Hclear).
  destruct (capture_blob_images _ _) as [w3 blob_count]; cbn in Hclear.
  apply item_effects_frame in Hnet as (_ & _ & Hp1).
  apply item_effects_frame in Hblob as (_ & _ & Hp2).
  destruct Hclear as [-> | ->]; cbn; by rewrite Hp2, Hp1.
Qed.

Lemma Inv_fresh_world : Inv output_dir fresh_world.
Proof.
  split; cbn; [constructor|done| |constructor].
  intros f Hf. by apply elem_of_nil in Hf.
Qed.

Lemma Inv_item_effect w w' :
  item_effect output_dir w w' → Inv output_dir w → Inv output_dir w'.
Proof.
  intros Heff [Hfiles Hcnt Hrec Hnodup].
  destruct Heff as [|h Hnew|f Hnew Hn Hok].
  - done.
  - split; cbn; [done|done| |done].
    intros f Hf. apply elem_of_union_r. by apply Hrec.
  - split; cbn.
    + apply Forall_app. split; [done|by constructor].
    + rewrite fmap_app, Hcnt, Nat.add_1_r, seq_S. cbn. by rewrite Hn.
    + intros g Hg. apply elem_of_app in Hg as [Hg|Hg].
      * apply elem_of_union_r. by apply Hrec.
      * apply list_elem_of_singleton in Hg as ->. apply elem_of_union_l.
        by apply elem_of_singleton.
    + rewrite fmap_app. apply NoDup_app. split; [done|]. split.
      * intros h Hh Hh'. apply list_elem_of_fmap in Hh as (g & -> & Hg).
        cbn in Hh'. apply list_elem_of_singleton in Hh'.
        apply Hnew. rewrite <- Hh'. by apply Hrec.
      * cbn. apply NoDup_singleton.
Qed.

Lemma Inv_evolves w w' :
  evolves output_dir w w' → Inv output_dir w → Inv output_dir w'.
Proof.
  induction 1 as [|w1 w2 _ IH Hstep|w1 rq bl ps _ IH]; intros Hinv.
  - done.
  - eapply Inv_item_effect; eauto.
  - destruct (IH Hinv). by split.
Qed.

End Invariant.

(** ** The scroll loop *)

Section LoopFacts.

Context `{Platform}.
Variable output_dir : string.
Variable pg : Page.

(** the loop, one turn unfolded *)
Lemma scroll_loop_turn max_scrolls st :
  scroll_loop output_dir pg max_scrolls st =
  if scroll_count st <? max_scrolls then
    let w := collection_pass output_dir pg (loop_world st) in
    let scroll_height := (scroll_height st + HEIGHT_PER_SCROLL)%Z in
    let last_height := scrollHeight pg (scroll_count st) in
    if (scroll_height >=? last_height)%Z
    then mkLoop w last_height (scroll_count st) scroll_height
    else scroll_loop output_dir pg max_scrolls
           (mkLoop w last_height (scroll_count st + 1) scroll_height)
  else st.
Proof.
  simp scroll_loop.
  destruct (inspect (scroll_count st <? max_scrolls)) as [[] Hb];
    simpl; rewrite Hb; reflexivity.
Qed.

Lemma iter_collection_pass_passes k w :
  passes (Nat.iter k (collection_pass output_dir pg) w) = passes w + k.
Proof.
  induction k as [|k IH]; [cbn; lia|].
  rewrite Nat.iter_succ, collection_pass_passes, IH. lia.
Qed.

Lemma iter_collection_pass_evolves k w :
  evolves output_dir w (Nat.iter k (collection_pass output_dir pg) w).
Proof.
  induction k as [|k IH]; [constructor|].
  rewrite Nat.iter_succ.
  eapply evolves_trans; [done|apply collection_pass_evolves].
Qed.

(** the loop makes at most [max_scrolls - scroll_count] passes and leaves
    [scroll_count] below the cap *)
Lemma scroll_loop_iter max_scrolls st :
  ∃ k, k ≤ max_scrolls - scroll_count st ∧
       loop_world (scroll_loop output_dir pg max_scrolls st) =
       Nat.iter k (collection_pass output_dir pg) (loop_world st).
Proof.
  remember (max_scrolls - scroll_count st) as n eqn:Hn. revert st Hn.
  induction n as [|n IH]; intros st Hn; rewrite scroll_loop_turn.
  - replace (scroll_count st <? max_scrolls) with false
      by (symmetry; apply Nat.ltb_ge; lia).
    by exists 0.
  - replace (scroll_count st <? max_scrolls) with true
      by (symmetry; apply Nat.ltb_lt; lia).
    cbn zeta. destruct (_ >=? _)%Z.
    + exists 1. split; [lia|done].
    + match goal with
      | |- context [scroll_loop _ _ _ ?st'] =>
          destruct (IH st') as (k & Hk & Heq); [cbn; lia|]
      end.
      exists (S k). split; [lia|].
      rewrite Heq. cbn [loop_world]. by rewrite Nat.iter_succ_r.
Qed.

(** the loop when the break condition first holds [d] turns from now *)
Lemma scroll_loop_break max_scrolls d st :
  scroll_count st + d < max_scrolls →
  (∀ i, i < d →
     (scroll_height st + HEIGHT_PER_SCROLL * (Z.of_nat i + 1)
      < scrollHeight pg (scroll_count st + i))%Z) →
  (scrollHeight pg (scroll_count st + d)
   ≤ scroll_height st + HEIGHT_PER_SCROLL * (Z.of_nat d + 1))%Z →
  scroll_loop output_dir pg max_scrolls st =
  mkLoop (Nat.iter (d + 1) (collection_pass output_dir pg) (loop_world st))
         (scrollHeight pg (scroll_count st + d))
         (scroll_count st + d)
         (scroll_height st + HEIGHT_PER_SCROLL * (Z.of_nat d + 1)).
Proof.
  unfold HEIGHT_PER_SCROLL.
  revert st. induction d as [|d IH]; intros st Hcap Hgrow Hstop;
    rewrite scroll_loop_turn; unfold HEIGHT_PER_SCROLL;
    (replace (scroll_count st <? max_scrolls) with true
      by (symmetry; apply Nat.ltb_lt; lia)); cbn zeta.
  - rewrite Nat.add_0_r in *.
    replace (_ >=? _)%Z with true by (symmetry; apply Z.geb_le; lia).
    f_equal.
  - pose proof (Hgrow 0 ltac:(lia)) as H0. rewrite Nat.add_0_r in H0.
    replace (_ >=? _)%Z with false
      by (symmetry; rewrite Z.geb_leb; apply Z.leb_gt; lia).
    rewrite IH; cbn [scroll_count scroll_height loop_world].
    + f_equal; [|f_equal; lia|lia|lia].
      by rewrite <- Nat.iter_succ_r.
    + lia.
    + intros i Hi. specialize (Hgrow (S i) ltac:(lia)).
      replace (scroll_count st + 1 + i) with (scroll_count st + S i) by lia. lia.
    + replace (scroll_count st + 1 + d) with (scroll_count st + S d) by lia. lia.
Qed.

(** a run is a number of collection passes, at least one and at most
    [max_scrolls + 1] *)
Lemma scroll_and_capture_passes max_scrolls w :
  ∃ n, 1 ≤ n ≤ max_scrolls + 1 ∧
       loop_world (scroll_and_capture output_dir pg max_scrolls w) =
       Nat.iter n (collection_pass output_dir pg) w.
Proof.
  unfold scroll_and_capture. cbn [loop_world].
  destruct (scroll_loop_iter max_scrolls (mkLoop w (initial_scrollHeight pg) 0 0%Z))
    as (k & Hk & Heq).
  cbn in Hk, Heq. exists (S k). split; [lia|]. by rewrite Heq.
Qed.

(** C6: a run makes at most [max_scrolls + 1] collection passes, whatever
    document heights the page reports (they may grow for ever): the world
    it ends in is the starting world after [n <= max_scrolls + 1] passes,
    the last of which is the one made after the loop. *)
Theorem scroll_and_capture_pass_bound max_scrolls w :
  ∃ n, 1 ≤ n ≤ max_scrolls + 1 ∧
       loop_world (scroll_and_capture output_dir pg max_scrolls w) =
       Nat.iter n (collection_pass output_dir pg) w ∧
       passes (loop_world (scroll_and_capture output_dir pg max_scrolls w)) =
       passes w + n.
Proof.
  destruct (scroll_and_capture_passes max_scrolls w) as (n & Hn & Heq).
  exists n. split_and!; [lia|lia|done|].
  rewrite Heq. apply iter_collection_pass_passes.
Qed.

(** C7: when the scroll offset first covers the height measured after the
    pause in the iteration with [scroll_count = k], [k < max_scrolls], the
    loop stops there: [scroll_count] stays [k], the offset is
    [1000 * (k + 1)], and the run has made the [k + 1] passes of the loop
    and the single final pass. *)
Theorem scroll_and_capture_stops_early max_scrolls k w :
  k < max_scrolls →
  (∀ i, i < k → (HEIGHT_PER_SCROLL * (Z.of_nat i + 1) < scrollHeight pg i)%Z) →
  (scrollHeight pg k ≤ HEIGHT_PER_SCROLL * (Z.of_nat k + 1))%Z →
  scroll_and_capture output_dir pg max_scrolls w =
  mkLoop (collection_pass output_dir pg
            (Nat.iter (k + 1) (collection_pass output_dir pg) w))
         (scrollHeight pg k) k (HEIGHT_PER_SCROLL * (Z.of_nat k + 1)).
Proof.
  intros Hk Hgrow Hstop. unfold scroll_and_capture.
  rewrite (scroll_loop_break max_scrolls k); cbn; try done.
Qed.

End LoopFacts.

(** ** File names *)

Lemma pretty_N_char_digit x : is_Some (Ascii.is_nat (pretty_N_char x)).
Proof. unfold pretty_N_char. repeat case_match; by eexists. Qed.

Lemma decimal_pretty_N_go x s : decimal s → decimal (pretty_N_go x s).
Proof.
  revert s. induction (N.lt_wf_0 x) as [x _ IH]; intros s Hs.
  destruct (decide (x = 0)%N) as [->|Hx]; [by rewrite pretty_N_go_0|].
  rewrite pretty_N_go_step by lia.
  apply IH; [apply N.div_lt; lia|].
  split; [apply pretty_N_char_digit|done].
Qed.

Lemma decimal_pretty_nat (n : nat) : decimal (pretty n).
Proof.
  unfold pretty, pretty_nat, pretty, pretty_N. case_decide.
  - split; [by eexists|done].
  - by apply decimal_pretty_N_go.
Qed.

(** the counter ends at the first underscore after the source tag *)
Lemma decimal_underscore_inj d1 d2 r1 r2 :
  decimal d1 → decimal d2 →
  d1 +:+ String "_" r1 = d2 +:+ String "_" r2 → d1 = d2.
Proof.
  revert d2. induction d1 as [|c1 d1 IH]; intros [|c2 d2]; cbn.
  - done.
  - intros _ [[n Hn] _] [= <- _]. by vm_compute in Hn.
  - intros [[n Hn] _] _ [= -> _]. by vm_compute in Hn.
  - intros [_ H1] [_ H2] [= -> Heq]. f_equal. by apply IH.
Qed.

Lemma spec_filename_inj s1 s2 n1 n2 h1 h2 e1 e2 :
  spec_filename s1 n1 h1 e1 = spec_filename s2 n2 h2 e2 → s1 = s2 ∧ n1 = n2.
Proof.
  unfold spec_filename.
  pose proof (decimal_pretty_nat n1) as Hd1.
  pose proof (decimal_pretty_nat n2) as Hd2.
  intros Heq.
  assert (s1 = s2) as ->.
  { destruct s1, s2; try done; by cbn in Heq. }
  split; [done|].
  apply (inj (String.app _)) in Heq. cbn in Heq. injection Heq as Heq.
  apply (inj pretty). by eapply decimal_underscore_inj.
Qed.

Lemma spec_filename_not_absolute s n h e :
  startswith "/" (spec_filename s n h e) = false.
Proof. by destruct s. Qed.

Lemma os_path_join_inj dir a b :
  startswith "/" a = false → startswith "/" b = false →
  os_path_join dir a = os_path_join dir b → a = b.
Proof.
  unfold os_path_join. intros -> ->.
  destruct (_ || _); intros Heq.
  - by apply (inj (String.app _)) in Heq.
  - apply (inj (String.app _)) in Heq. by injection Heq.
Qed.

Lemma spec_extension_cases content_type :
  spec_extension content_type ∈ spec_extensions.
Proof.
  unfold spec_extension, spec_extensions.
  repeat case_match; set_solver.
Qed.

(** two list members with the same image under [f] are equal when the
    images under [f] do not repeat *)
Lemma NoDup_fmap_member_inj {A B} (f : A → B) (l : list A) x y :
  NoDup (f <$> l) → x ∈ l → y ∈ l → f x = f y → x = y.
Proof.
  intros Hnd Hx Hy Hf.
  apply list_elem_of_lookup in Hx as [i Hi].
  apply list_elem_of_lookup in Hy as [j Hj].
  assert (i = j) as ->; [|congruence].
  eapply NoDup_lookup; [done|..].
  - by rewrite list_lookup_fmap, Hi.
  - by rewrite list_lookup_fmap, Hj, Hf.
Qed.

Lemma NoDup_fmap_through {A B C} (f : A → B) (g : A → C) (l : list A) :
  NoDup (f <$> l) →
  (∀ x y, x ∈ l → y ∈ l → g x = g y → f x = f y) →
  NoDup (g <$> l).
Proof.
  intros Hnd Hfg. apply NoDup_fmap_2_strong.
  - intros x y Hx Hy Hg. eapply NoDup_fmap_member_inj; eauto.
  - by eapply NoDup_fmap_1.
Qed.

Lemma string_app_assoc a b c : (a +:+ b) +:+ c = a +:+ b +:+ c.
Proof. induction a as [|x a IH]; [done|]. exact (f_equal (String x) IH). Qed.

Lemma startswith_spec p s : startswith p s = true ↔ ∃ post, s = p +:+ post.
Proof.
  unfold startswith. revert s. induction p as [|c p IH]; intros s.
  - split; [intros _; by exists s|by destruct s].
  - destruct s as [|c' s]; cbn; [split; [done|by intros [? ?]]|].
    destruct (Ascii.ascii_dec c c') as [->|Hne].
    + rewrite IH. split; intros [post Hpost]; exists post.
      * by rewrite Hpost.
      * by injection Hpost.
    + split; [done|]. intros [post Hpost]. injection Hpost as Hc _. congruence.
Qed.

(** [contains sub s] is Python's [sub in s]: [sub] occurs somewhere in [s] *)
Lemma contains_spec sub s :
  contains sub s = true ↔ ∃ pre post, s = pre +:+ sub +:+ post.
Proof.
  induction s as [|c s IH]; cbn [contains]; rewrite orb_true_iff, startswith_spec.
  - split.
    + intros [[post Hpost]|?]; [|done]. by exists "", post.
    + intros ([|??] & post & Heq); [|done]. left. by exists post.
  - rewrite IH. split.
    + intros [[post Hpost]|(pre & post & ->)].
      * by exists "", post.
      * by exists (String c pre), post.
    + intros ([|c' pre] & post & Heq).
      * left. by exists post.
      * right. exists pre, post. by injection Heq.
Qed.

(** ** Whole runs *)

Section RunFacts.

Context `{Platform}.
Variable output_dir : string.
Variable pg : Page.

Lemma Inv_after_passes k :
  Inv output_dir (Nat.iter k (collection_pass output_dir pg) fresh_world).
Proof.
  eapply Inv_evolves; [apply iter_collection_pass_evolves|apply Inv_fresh_world].
Qed.

Lemma Inv_scroll_and_capture max_scrolls :
  Inv output_dir (loop_world (scroll_and_capture output_dir pg max_scrolls fresh_world)).
Proof.
  destruct (scroll_and_capture_passes output_dir pg max_scrolls fresh_world)
    as (n & _ & ->).
  apply Inv_after_passes.
Qed.

Lemma Inv_counter_length w :
  Inv output_dir w → image_counter w = length (files w).
Proof.
  intros [_ Hcnt _ _].
  apply (f_equal length) in Hcnt. by rewrite length_fmap, length_seq in Hcnt.
Qed.

Lemma Inv_filenames w :
  Inv output_dir w →
  NoDup (counter <$> files w) ∧ NoDup (filename <$> files w) ∧
  NoDup (filepath <$> files w).
Proof.
  intros [Hfiles Hcnt _ _]. rewrite Forall_forall in Hfiles.
  assert (NoDup (counter <$> files w)) as Hnd by (rewrite Hcnt; apply NoDup_seq).
  assert (∀ x y, x ∈ files w → y ∈ files w →
                 filename x = filename y → counter x = counter y) as Hname.
  { intros x y Hx Hy Heq.
    rewrite (file_ok_name _ _ (Hfiles x Hx)), (file_ok_name _ _ (Hfiles y Hy)) in Heq.
    by apply spec_filename_inj in Heq as [_ ?]. }
  split_and!; [done|by eapply NoDup_fmap_through|].
  eapply NoDup_fmap_through; [exact Hnd|].
  intros x y Hx Hy Heq. apply Hname; [done|done|].
  rewrite (file_ok_path _ _ (Hfiles x Hx)), (file_ok_path _ _ (Hfiles y Hy)) in Heq.
  apply os_path_join_inj in Heq; [done|..].
  - rewrite (file_ok_name _ _ (Hfiles x Hx)). apply spec_filename_not_absolute.
  - rewrite (file_ok_name _ _ (Hfiles y Hy)). apply spec_filename_not_absolute.
Qed.

Lemma Inv_payloads w :
  Inv output_dir w → NoDup (payload <$> files w).
Proof.
  intros [Hfiles _ _ Hnd]. rewrite Forall_forall in Hfiles.
  eapply NoDup_fmap_through; [exact Hnd|].
  intros x y Hx Hy Heq.
  by rewrite (file_ok_hash _ _ (Hfiles x Hx)), (file_ok_hash _ _ (Hfiles y Hy)), Heq.
Qed.

(** C1: in the files written by a run, from both collectors and all
    passes, no content hash occurs twice and no payload occurs twice; the
    hash kept for a file is the digest of its payload, and it is in the one
    dedup set both collectors test and fill. *)
Theorem no_two_files_share_a_hash max_scrolls :
  let w := loop_world (scroll_and_capture output_dir pg max_scrolls fresh_world) in
  NoDup (image_hash <$> files w) ∧
  NoDup (payload <$> files w) ∧
  Forall (λ f, image_hash f = md5_hexdigest (payload f) ∧
               image_hash f ∈ captured_blobs w) (files w).
Proof.
  intros w. pose proof (Inv_scroll_and_capture max_scrolls) as Hinv. fold w in Hinv.
  split_and!.
  - apply (inv_hashes _ _ Hinv).
  - by apply Inv_payloads.
  - apply Forall_forall. intros f Hf. split.
    + pose proof (inv_files _ _ Hinv) as Hfiles. rewrite Forall_forall in Hfiles.
      apply (file_ok_hash _ _ (Hfiles f Hf)).
    + by apply (inv_recorded _ _ Hinv).
Qed.

(** C4: every file a run saves, from either collector, carries the
    extension chosen by substring match on its declared type (the
    Content-Type header of the exchange, the [type] of the buffer entry):
    png if it contains "png", else gif if it contains "gif", else webp if
    it contains "webp", else jpg; so the extension is one of the four, and
    it is the suffix of the file name. *)
Theorem extension_by_declared_type max_scrolls :
  let w := loop_world (scroll_and_capture output_dir pg max_scrolls fresh_world) in
  Forall (λ f,
    let t := declared_type f in
    file_origin output_dir f ∧
    ext f = (if contains "png" t then "png"
             else if contains "gif" t then "gif"
             else if contains "webp" t then "webp"
             else "jpg") ∧
    ext f ∈ spec_extensions ∧
    ∃ stem, filename f = stem +:+ "." +:+ ext f) (files w).
Proof.
  intros w. pose proof (Inv_scroll_and_capture max_scrolls) as Hinv. fold w in Hinv.
  pose proof (inv_files _ _ Hinv) as Hfiles.
  eapply Forall_impl; [exact Hfiles|]. intros f [Horigin Hname _ Hext _]. cbn zeta.
  split_and!; [done|done|rewrite Hext; apply spec_extension_cases|].
  rewrite Hname. unfold spec_filename.
  exists (source_tag (source f) +:+ "_" +:+ pretty (counter f) +:+ "_" +:+
          String.substring 0 8 (image_hash f)).
  by rewrite !string_app_assoc.
Qed.

(** C5: the file names a run writes are pairwise distinct, and so are the
    paths, whatever the digests are (in particular when all of them share
    their first 8 characters): every name has the form
    <source>_<counter>_<hash8>.<ext> and no counter occurs twice. *)
Theorem filenames_pairwise_distinct max_scrolls :
  let w := loop_world (scroll_and_capture output_dir pg max_scrolls fresh_world) in
  NoDup (filename <$> files w) ∧
  NoDup (filepath <$> files w) ∧
  NoDup (counter <$> files w) ∧
  Forall (λ f, filename f =
               spec_filename (source f) (counter f) (image_hash f) (ext f)) (files w).
Proof.
  intros w. pose proof (Inv_scroll_and_capture max_scrolls) as Hinv. fold w in Hinv.
  destruct (Inv_filenames _ Hinv) as (Hc & Hn & Hp).
  split_and!; try done.
  eapply Forall_impl; [apply (inv_files _ _ Hinv)|]. by intros f [].
Qed.

(** C9: after every collection pass, and at the end of a run, the image
    counter is the number of files written so far; the counters in the file
    names, network and blob files together, are 0, 1, 2, ... in save
    order. *)
Theorem image_counter_counts_saved_files :
  (∀ k, counter_counts_files
          (Nat.iter k (collection_pass output_dir pg) fresh_world)) ∧
  (∀ max_scrolls, counter_counts_files
          (loop_world (scroll_and_capture output_dir pg max_scrolls fresh_world))).
Proof.
  assert (∀ w, Inv output_dir w → counter_counts_files w) as Hccf.
  { intros w Hinv. pose proof (Inv_counter_length _ Hinv) as Hlen.
    split_and!; [done|by rewrite <- Hlen; apply (inv_counters _ _ Hinv)|].
    eapply Forall_impl; [apply (inv_files _ _ Hinv)|]. by intros f []. }
  split; intros; apply Hccf; [apply Inv_after_passes|apply Inv_scroll_and_capture].
Qed.

End RunFacts.

(** ** Single entries *)

Section EntryFacts.

Context `{Platform}.
Variable output_dir : string.

Lemma for_each_skip {X} (body : X → Py.M Frame unit) x before after :
  (∀ fr, body x fr = (fr, Py.Normal tt)) →
  ∀ fr, Py.for_each (before ++ x :: after) body fr =
        Py.for_each (before ++ after) body fr.
Proof.
  intros Hskip. induction before as [|y before IH]; intros fr; cbn; unfold Py.bind.
  - by rewrite Hskip.
  - destruct (body y fr) as [fr1 [[]|]]; [apply IH|done].
Qed.

(** C10: a buffer entry whose [data] is null, empty or does not start with
    "data:image" leaves the collector's frame as it was and raises nothing:
    no file, no hash, no counter change; the pass goes as if the entry were
    not in the buffer. *)
Theorem blob_entry_without_image_data_is_ignored blob :
  (data blob = None ∨ data blob = Some "" ∨
   ∃ d, data blob = Some d ∧ startswith "data:image" d = false) →
  (∀ fr, blob_iteration output_dir blob fr = (fr, Py.Normal tt)) ∧
  (∀ before after fr,
     Py.for_each (before ++ blob :: after) (blob_iteration output_dir) fr =
     Py.for_each (before ++ after) (blob_iteration output_dir) fr).
Proof.
  intros Hdata.
  assert (is_image_data_url blob = None) as Hnone.
  { unfold is_image_data_url.
    destruct Hdata as [-> | [-> | (d & -> & ->)]]; [done|done|].
    by rewrite andb_false_r. }
  assert (∀ fr, blob_iteration output_dir blob fr = (fr, Py.Normal tt)) as Hskip.
  { intros fr. unfold blob_iteration. by rewrite Hnone. }
  split; [done|]. intros before after. by apply for_each_skip.
Qed.

(** C3, as the code has it: for an exchange with an unseen image body the
    hash is recorded in the dedup set first; decoding, the extension, the
    write and the counter come after.  So the turn always leaves the hash
    in the set: with the file written and the counter advanced when PIL
    opens and saves the body, with nothing else changed when it raises.
    The turn itself never raises, and a later exchange with the same body
    is skipped. *)
Theorem network_hash_recorded_before_decoding request resp fr :
  is_image_response request = Some resp →
  md5_hexdigest (body resp) ∉ captured_blobs (world fr) →
  let h := md5_hexdigest (body resp) in
  let f := network_file output_dir (image_counter (world fr)) resp in
  let fr' := (network_iteration output_dir request fr).1 in
  (network_iteration output_dir request fr).2 = Py.Normal tt ∧
  h ∈ captured_blobs (world fr') ∧
  (Image_open (body resp) && Image_save (body resp) (filepath f) = true →
   world fr' = incr_image_counter (write_file f (add_hash h (world fr)))) ∧
  (Image_open (body resp) && Image_save (body resp) (filepath f) = false →
   world fr' = add_hash h (world fr)) ∧
  (∀ request' resp',
     is_image_response request' = Some resp' → body resp' = body resp →
     network_iteration output_dir request' fr' = (fr', Py.Normal tt)).
Proof.
  intros Himg Hnew h f fr'. subst fr'.
  assert (∀ fr1 request' resp',
            h ∈ captured_blobs (world fr1) →
            is_image_response request' = Some resp' → body resp' = body resp →
            network_iteration output_dir request' fr1 = (fr1, Py.Normal tt)) as Hskip.
  { intros fr1 request' resp' Hin Himg' Hbody. unfold network_iteration.
    rewrite Himg'. unfold Py.try_except. rewrite network_try_run. cbn zeta.
    rewrite Hbody. by rewrite bool_decide_eq_true_2. }
  unfold network_iteration. rewrite Himg. unfold Py.try_except.
  rewrite network_try_run. cbn zeta. rewrite bool_decide_eq_false_2 by done.
  fold h f. destruct (_ && _); cbn.
  - split_and!; [done|set_solver|done|done|].
    intros request' resp' Himg' Hbody.
    apply (Hskip _ request' resp'); [cbn; set_solver|done|done].
  - split_and!; [done|set_solver|done|done|].
    intros request' resp' Himg' Hbody.
    apply (Hskip _ request' resp'); [cbn; set_solver|done|done].
Qed.

(** when no entry raises, the blob collector leaves an empty buffer *)
Lemma capture_blob_images_clears w fr :
  Py.for_each (interceptedBlobs w) (blob_iteration output_dir) (mkFrame w 0)
    = (fr, Py.Normal tt) →
  interceptedBlobs (capture_blob_images output_dir w).1 = [].
Proof.
  intros Hloop.
  unfold capture_blob_images, capture_blob_images_body, capture_blob_images_try.
  unfold Py.try_except, Py.bind, Py.gets, Py.modify, Py.ret. cbn.
  by rewrite Hloop.
Qed.

(** when an entry raises, the buffer is left as it was read *)
Lemma capture_blob_images_keeps w fr :
  Py.for_each (interceptedBlobs w) (blob_iteration output_dir) (mkFrame w 0)
    = (fr, Py.Raised) →
  interceptedBlobs (capture_blob_images output_dir w).1 = interceptedBlobs w.
Proof.
  intros Hloop.
  unfold capture_blob_images, capture_blob_images_body, capture_blob_images_try.
  unfold Py.try_except, Py.bind, Py.gets, Py.modify, Py.ret. cbn.
  rewrite Hloop. cbn.
  pose proof (blob_loop_effects output_dir (interceptedBlobs w) (mkFrame w 0)) as Hev.
  rewrite Hloop in Hev. cbn in Hev.
  by apply item_effects_frame in Hev as (_ & Hbuffer & _).
Qed.

(** on any platform: an unseen image entry that PIL cannot open, at the
    head of the buffer, ends the blob pass; its hash is recorded, the
    entries behind it are not looked at, the buffer is not cleared *)
Lemma capture_blob_images_stops_at_undecodable w blob rest d b64 image_data :
  interceptedBlobs w = blob :: rest →
  is_image_data_url blob = Some d →
  split "," d !! 1 = Some b64 →
  b64decode b64 = Some image_data →
  md5_hexdigest image_data ∉ captured_blobs w →
  Image_open image_data = false →
  capture_blob_images output_dir w = (add_hash (md5_hexdigest image_data) w, 0).
Proof.
  intros Hbuf Hurl Hsplit Hdec Hnew Hopen.
  assert (capture_blob_images_body output_dir (mkFrame w 0) =
          (with_world (add_hash (md5_hexdigest image_data)) (mkFrame w 0),
           Py.Normal tt)) as Hbody.
  { unfold capture_blob_images_body, capture_blob_images_try.
    unfold Py.try_except, Py.bind at 1, Py.gets. cbn [world fst]. rewrite Hbuf.
    cbn [Py.for_each]. unfold Py.bind.
    rewrite blob_iteration_run, Hurl, Hsplit, Hdec. cbn zeta. cbn [world].
    rewrite bool_decide_eq_false_2 by done. by rewrite Hopen. }
  unfold capture_blob_images. by rewrite Hbody.
Qed.

End EntryFacts.

(** ** Concrete runs on the sample platform *)

(** The sample page, with a cap of 5: the loop stops in its third turn,
    four passes are made; the copy of B1 in the hook buffer and the second
    fetch of B1 are not written again; the undecodable body is skipped by
    the network collector; the SVG blob aborts the first blob pass, so the
    GIF blob is written in the second; counters run over both sources, and
    all digests share their first 8 characters. *)
Example sample_run :
  let r := scroll_and_capture (H:=sample_platform) "./cache" sample_page 5 fresh_world in
  filepath <$> files (loop_world r) =
    ["./cache/network_image_0_deadbeef.png";
     "./cache/network_image_1_deadbeef.webp";
     "./cache/blob_image_2_deadbeef.gif"] ∧
  scroll_count r = 2 ∧ passes (loop_world r) = 4 ∧
  image_counter (loop_world r) = 3 ∧
  interceptedBlobs (loop_world r) = [].
Proof. vm_compute. done. Qed.

(** On the endless page the cap ends the loop: [max_scrolls + 1] passes. *)
Example endless_run :
  let r := scroll_and_capture (H:=sample_platform) "./cache" endless_page 3 fresh_world in
  scroll_count r = 3 ∧ passes (loop_world r) = 4.
Proof. vm_compute. done. Qed.

Lemma scroll_and_capture_stops_early_witness :
  2 < 5 ∧
  (∀ i, i < 2 → (HEIGHT_PER_SCROLL * (Z.of_nat i + 1) < scrollHeight sample_page i)%Z) ∧
  (scrollHeight sample_page 2 ≤ HEIGHT_PER_SCROLL * (Z.of_nat 2 + 1))%Z ∧
  scroll_count
    (scroll_and_capture (H:=sample_platform) "./cache" sample_page 5 fresh_world) = 2.
Proof.
  assert (∀ i, i < 2 →
    (HEIGHT_PER_SCROLL * (Z.of_nat i + 1) < scrollHeight sample_page i)%Z) as Hgrow.
  { intros i Hi. unfold HEIGHT_PER_SCROLL. cbn. lia. }
  assert (scrollHeight sample_page 2 ≤ HEIGHT_PER_SCROLL * (Z.of_nat 2 + 1))%Z as Hstop.
  { unfold HEIGHT_PER_SCROLL. cbn. lia. }
  split_and!; [lia|done|done|].
  rewrite (scroll_and_capture_stops_early (H:=sample_platform)
             "./cache" sample_page 5 2 fresh_world ltac:(lia) Hgrow Hstop).
  reflexivity.
Defined.

Lemma blob_entry_without_image_data_is_ignored_witness :
  (∃ d, data text_blob = Some d ∧ startswith "data:image" d = false) ∧
  blob_iteration (H:=sample_platform) "./cache" text_blob fresh_frame
    = (fresh_frame, Py.Normal tt).
Proof.
  assert (∃ d, data text_blob = Some d ∧ startswith "data:image" d = false) as Hd.
  { by eexists. }
  split; [done|].
  apply (blob_entry_without_image_data_is_ignored (H:=sample_platform)
           "./cache" text_blob (or_intror (or_intror Hd))).
Defined.

Lemma network_hash_recorded_before_decoding_witness :
  is_image_response bad_request = Some bad_response ∧
  (md5_hexdigest (Platform:=sample_platform) (body bad_response)
     ∉ captured_blobs (world fresh_frame)) ∧
  (md5_hexdigest (Platform:=sample_platform) (body bad_response)
     ∈ captured_blobs
         (world (network_iteration (H:=sample_platform)
                   "./cache" bad_request fresh_frame).1)).
Proof.
  assert (is_image_response bad_request = Some bad_response) as Himg by reflexivity.
  assert (md5_hexdigest (Platform:=sample_platform) (body bad_response) ∉
          captured_blobs (world fresh_frame)) as Hnew by apply not_elem_of_empty.
  split_and!; [done|done|].
  apply (network_hash_recorded_before_decoding (H:=sample_platform)
           "./cache" bad_request bad_response fresh_frame Himg Hnew).
Defined.

(** C3 fails as stated: the body "bad" does not decode, yet after the
    network collector's turn on it the dedup set has changed (it holds the
    digest of "bad"), while no file is written. *)
Lemma undecodable_body_changes_dedup_set :
  Image_open (Platform:=sample_platform) (body bad_response) = false ∧
  files (world (network_iteration (H:=sample_platform)
                  "./cache" bad_request fresh_frame).1) = [] ∧
  captured_blobs (world (network_iteration (H:=sample_platform)
                           "./cache" bad_request fresh_frame).1)
    ≠ captured_blobs (world fresh_frame).
Proof.
  split_and!; [done|done|].
  intros Heq. apply (f_equal elements) in Heq. by vm_compute in Heq.
Qed.

(** C2 at a failing input: the hook buffer holds an SVG blob, which PIL
    cannot open, and then a GIF blob.  The blob collector stops at the SVG
    blob: the GIF blob is not processed in that pass, nothing is written
    and the buffer is not cleared.  The network collector, given the same
    two payloads, skips the first and writes the second.  When the two
    blobs arrive before the final pass of a run, the GIF is never
    written. *)
Theorem undecodable_blob_aborts_blob_pass :
  let blob_pass :=
    capture_blob_images (H:=sample_platform) "./cache"
      (world_with [] [svg_blob; gif_blob]) in
  let network_pass :=
    capture_network_images (H:=sample_platform) "./cache"
      (world_with [exchange "image/svg+xml" "bad"; exchange "image/gif" "B3"] []) in
  let run := scroll_and_capture (H:=sample_platform) "./cache" late_svg_page 10 fresh_world in
  files blob_pass.1 = [] ∧ blob_pass.2 = 0 ∧
  filename <$> files network_pass.1 = ["network_image_0_deadbeef.gif"] ∧
  network_pass.2 = 1 ∧
  passes (loop_world run) = 2 ∧ files (loop_world run) = [].
Proof. vm_compute. done. Qed.

(** C8 at a failing input: after a blob pass over a buffer holding an SVG
    blob and a GIF blob, the buffer is as it was read, so the next pass is
    presented with the same two entries again (and writes the GIF then). *)
Theorem blob_buffer_kept_when_an_entry_raises :
  let w := world_with [] [svg_blob; gif_blob] in
  let w1 := (capture_blob_images (H:=sample_platform) "./cache" w).1 in
  let w2 := (capture_blob_images (H:=sample_platform) "./cache" w1).1 in
  interceptedBlobs w1 = [svg_blob; gif_blob] ∧
  files w1 = [] ∧
  filename <$> files w2 = ["blob_image_0_deadbeef.gif"] ∧
  interceptedBlobs w2 = [].
Proof. vm_compute. done. Qed.

(** * Further properties of the collectors *)

Section CollectorReturns.

Context `{Platform}.
Variable output_dir : string.

Lemma for_each_related {X} (R : Frame → Frame → Prop) (body : X → Py.M Frame unit) xs :
  (∀ fr, R fr fr) →
  (∀ fr1 fr2 fr3, R fr1 fr2 → R fr2 fr3 → R fr1 fr3) →
  (∀ x fr, R fr (body x fr).1) →
  ∀ fr, R fr (Py.for_each xs body fr).1.
Proof.
  intros Hrefl Htrans Hbody. induction xs as [|x xs IH]; intros fr; [apply Hrefl|].
  cbn. unfold Py.bind. pose proof (Hbody x fr) as Hx.
  destruct (body x fr) as [fr1 [[]|]]; cbn in *; [|done].
  eapply Htrans; [exact Hx|apply IH].
Qed.

Lemma counts_from_refl fr : counts_from fr fr.
Proof. exists 0. lia. Qed.

Lemma counts_from_trans fr1 fr2 fr3 :
  counts_from fr1 fr2 → counts_from fr2 fr3 → counts_from fr1 fr3.
Proof. intros (n & ? & ? & ?) (m & ? & ? & ?). exists (n + m). lia. Qed.

Lemma network_iteration_counts request fr :
  counts_from fr (network_iteration output_dir request fr).1.
Proof.
  unfold network_iteration. destruct (is_image_response request) as [resp|];
    [|apply counts_from_refl].
  unfold Py.try_except. rewrite network_try_run. cbn zeta.
  destruct (bool_decide _); [apply counts_from_refl|].
  destruct (_ && _); cbn.
  - exists 1. cbn. rewrite length_app. cbn. lia.
  - exists 0. cbn. lia.
Qed.

Lemma blob_iteration_counts blob fr :
  counts_from fr (blob_iteration output_dir blob fr).1.
Proof.
  rewrite blob_iteration_run.
  destruct (is_image_data_url blob) as [d|]; [|apply counts_from_refl].
  destruct (split "," d !! 1) as [b64|]; [|apply counts_from_refl].
  destruct (b64decode b64) as [image_data|]; [|apply counts_from_refl].
  cbn zeta. destruct (bool_decide _); [apply counts_from_refl|].
  destruct (_ && _); cbn.
  - exists 1. cbn. rewrite length_app. cbn. lia.
  - exists 0. cbn. lia.
Qed.

(** X1: the number [capture_network_images] returns is the number of files
    the call wrote, and the amount by which it advanced the image
    counter. *)
Theorem capture_network_images_returns_files_written w :
  let r := capture_network_images output_dir w in
  length (files r.1) = length (files w) + r.2 ∧
  image_counter r.1 = image_counter w + r.2.
Proof.
  unfold capture_network_images, capture_network_images_body, Py.bind, Py.gets.
  cbn. pose proof (for_each_related counts_from (network_iteration output_dir)
    (requests w) counts_from_refl counts_from_trans network_iteration_counts
    (mkFrame w 0)) as (n & Hc & Hf & Hi).
  cbn in *. lia.
Qed.

(** X2: the number [capture_blob_images] returns is the number of files
    the call wrote, and the amount by which it advanced the image counter,
    also when an entry raised and the pass was cut short. *)
Theorem capture_blob_images_returns_files_written w :
  let r := capture_blob_images output_dir w in
  length (files r.1) = length (files w) + r.2 ∧
  image_counter r.1 = image_counter w + r.2.
Proof.
  unfold capture_blob_images, capture_blob_images_body, capture_blob_images_try.
  unfold Py.try_except, Py.bind, Py.gets, Py.modify, Py.ret. cbn.
  pose proof (for_each_related counts_from (blob_iteration output_dir)
    (interceptedBlobs w) counts_from_refl counts_from_trans blob_iteration_counts
    (mkFrame w 0)) as (n & Hc & Hf & Hi).
  destruct (Py.for_each _ _ _) as [fr1 [[]|]]; cbn in *; lia.
Qed.


End CollectorReturns.

Section CollectorRepeats.

Context `{Platform}.
Variable output_dir : string.

Lemma item_effect_grows w w' : item_effect output_dir w w' → grows w w'.
Proof.
  intros [|h Hnew|f Hnew Hn Hok]; unfold grows; cbn.
  - done.
  - split_and!; [set_solver|done|done].
  - split_and!; [set_solver|by apply prefix_app_r|lia].
Qed.

Lemma grows_trans w1 w2 w3 : grows w1 w2 → grows w2 w3 → grows w1 w3.
Proof.
  intros (? & ? & ?) (? & ? & ?). split_and!; [set_solver|by etrans|lia].
Qed.

Lemma evolves_grows w w' : evolves output_dir w w' → grows w w'.
Proof.
  induction 1 as [|w1 w2 _ IH Hstep|w1 rq bl ps _ IH].
  - done.
  - eapply grows_trans; [exact IH|by apply item_effect_grows].
  - exact IH.
Qed.

(** a turn on an exchange whose hash is recorded changes nothing *)
Lemma network_iteration_seen request fr :
  (∀ resp, is_image_response request = Some resp →
           md5_hexdigest (body resp) ∈ captured_blobs (world fr)) →
  network_iteration output_dir request fr = (fr, Py.Normal tt).
Proof.
  intros Hseen. unfold network_iteration.
  destruct (is_image_response request) as [resp|]; [|done].
  unfold Py.try_except. rewrite network_try_run. cbn zeta.
  by rewrite bool_decide_eq_true_2 by by apply Hseen.
Qed.

(** after a turn on an image exchange its hash is recorded *)
Lemma network_iteration_records request resp fr :
  is_image_response request = Some resp →
  md5_hexdigest (body resp) ∈
    captured_blobs (world (network_iteration output_dir request fr).1).
Proof.
  intros Himg. unfold network_iteration. rewrite Himg.
  unfold Py.try_except. rewrite network_try_run. cbn zeta.
  case_bool_decide as Hseen; [done|].
  destruct (_ && _); cbn; set_solver.
Qed.

Lemma network_loop_records reqs fr request resp :
  request ∈ reqs → is_image_response request = Some resp →
  md5_hexdigest (body resp) ∈
    captured_blobs (world (Py.for_each reqs (network_iteration output_dir) fr).1).
Proof.
  revert fr. induction reqs as [|r reqs IH]; intros fr Hin Himg.
  { by apply elem_of_nil in Hin. }
  cbn. unfold Py.bind.
  destruct (network_iteration_effect output_dir r fr) as (fr1 & Hrun & _).
  pose proof (network_iteration_records r resp fr) as Hrec.
  rewrite Hrun in *. cbn in Hrec.
  apply elem_of_cons in Hin as [->|Hin]; [|by apply IH].
  destruct (network_loop_effects output_dir reqs fr1) as (fr2 & Hrest & Hev).
  rewrite Hrest. cbn.
  apply item_effects_evolves, evolves_grows in Hev as (Hsub & _).
  apply Hsub. by apply Hrec.
Qed.

Lemma network_loop_seen reqs fr :
  (∀ request resp, request ∈ reqs → is_image_response request = Some resp →
                   md5_hexdigest (body resp) ∈ captured_blobs (world fr)) →
  Py.for_each reqs (network_iteration output_dir) fr = (fr, Py.Normal tt).
Proof.
  induction reqs as [|r reqs IH]; intros Hseen; [done|].
  cbn. unfold Py.bind. rewrite network_iteration_seen.
  - apply IH. intros request resp Hin. apply Hseen. by apply elem_of_cons; right.
  - intros resp. apply Hseen. by apply elem_of_cons; left.
Qed.

(** a network pass over a log all of whose image bodies are recorded is a
    no-op *)
Lemma capture_network_images_seen w :
  (∀ request resp, request ∈ requests w → is_image_response request = Some resp →
                   md5_hexdigest (body resp) ∈ captured_blobs w) →
  capture_network_images output_dir w = (w, 0).
Proof.
  intros Hseen.
  unfold capture_network_images, capture_network_images_body, Py.bind, Py.gets.
  cbn. by rewrite network_loop_seen.
Qed.


(** X5: an entry of the log without a response, or whose Content-Type does
    not start with "image/" (or is absent), is passed over by the network
    collector: the frame is unchanged and the pass goes as if the entry
    were not in the log. *)
Theorem request_without_image_response_is_ignored request :
  (response request = None ∨
   ∃ resp, response request = Some resp ∧
           startswith "image/" (headers_get_content_type resp) = false) →
  (∀ fr, network_iteration output_dir request fr = (fr, Py.Normal tt)) ∧
  (∀ before after fr,
     Py.for_each (before ++ request :: after) (network_iteration output_dir) fr =
     Py.for_each (before ++ after) (network_iteration output_dir) fr).
Proof.
  intros Hresp.
  assert (is_image_response request = None) as Hnone.
  { unfold is_image_response. by destruct Hresp as [-> | (resp & -> & ->)]. }
  assert (∀ fr, network_iteration output_dir request fr = (fr, Py.Normal tt)) as Hskip.
  { intros fr. unfold network_iteration. by rewrite Hnone. }
  split; [done|]. intros before after. by apply for_each_skip.
Qed.

(** a turn on a buffer entry whose payload hash is recorded changes
    nothing *)
Lemma blob_iteration_seen blob d b64 image_data fr :
  is_image_data_url blob = Some d →
  split "," d !! 1 = Some b64 →
  b64decode b64 = Some image_data →
  md5_hexdigest image_data ∈ captured_blobs (world fr) →
  blob_iteration output_dir blob fr = (fr, Py.Normal tt).
Proof.
  intros Hurl Hsplit Hdec Hseen.
  rewrite blob_iteration_run, Hurl, Hsplit, Hdec. cbn zeta.
  by rewrite bool_decide_eq_true_2.
Qed.

(** X6: the dedup set is shared by the two collectors at the level of
    single entries: once the network collector has taken its turn on an
    image body, a buffer entry that decodes to the same bytes is skipped by
    the blob collector; and once the blob collector has taken its turn on
    an entry (raising or not), an exchange with the same bytes is skipped
    by the network collector. *)
Theorem same_payload_skipped_by_other_collector request resp blob d b64 fr :
  is_image_response request = Some resp →
  is_image_data_url blob = Some d →
  split "," d !! 1 = Some b64 →
  b64decode b64 = Some (body resp) →
  blob_iteration output_dir blob (network_iteration output_dir request fr).1
    = ((network_iteration output_dir request fr).1, Py.Normal tt) ∧
  network_iteration output_dir request (blob_iteration output_dir blob fr).1
    = ((blob_iteration output_dir blob fr).1, Py.Normal tt).
Proof.
  intros Himg Hurl Hsplit Hdec. split.
  - eapply blob_iteration_seen; [done|done|done|].
    by apply network_iteration_records.
  - apply network_iteration_seen. intros resp' Himg'.
    assert (resp' = resp) as -> by congruence.
    rewrite blob_iteration_run, Hurl, Hsplit, Hdec. cbn zeta.
    case_bool_decide as Hseen; [done|].
    destruct (_ && _); cbn; set_solver.
Qed.

End CollectorRepeats.

Section BlobPasses.

Context `{Platform}.
Variable output_dir : string.

(** X7: an image data URL at the head of the buffer that has no comma, or
    whose text after the comma is refused by [b64decode], raises before any
    hash is recorded: the blob pass returns 0 with the world untouched, the
    buffer included, so every later blob pass stops at the same entry and
    the entries behind it are never processed. *)
Theorem malformed_image_entry_blocks_blob_passes w blob rest d :
  interceptedBlobs w = blob :: rest →
  is_image_data_url blob = Some d →
  (split "," d !! 1 = None ∨
   ∃ b64, split "," d !! 1 = Some b64 ∧ b64decode b64 = None) →
  capture_blob_images output_dir w = (w, 0) ∧
  ∀ k, Nat.iter k (λ w, (capture_blob_images output_dir w).1) w = w.
Proof.
  intros Hbuf Hurl Hbad.
  assert (capture_blob_images output_dir w = (w, 0)) as Hpass.
  { assert (capture_blob_images_body output_dir (mkFrame w 0) =
            (mkFrame w 0, Py.Normal tt)) as Hbody.
    { unfold capture_blob_images_body, capture_blob_images_try.
      unfold Py.try_except, Py.bind at 1, Py.gets. cbn [world fst]. rewrite Hbuf.
      cbn [Py.for_each]. unfold Py.bind.
      rewrite blob_iteration_run, Hurl.
      destruct Hbad as [-> | (b64 & -> & ->)]; done. }
    unfold capture_blob_images. by rewrite Hbody. }
  split; [done|]. induction k as [|k IH]; [done|].
  rewrite Nat.iter_succ, IH. by rewrite Hpass.
Qed.

(** X8: when no entry of the buffer raises, the blob pass leaves the buffer
    empty, and a blob pass made right after it changes nothing and
    returns 0. *)
Theorem capture_blob_images_then_empty w fr :
  Py.for_each (interceptedBlobs w) (blob_iteration output_dir) (mkFrame w 0)
    = (fr, Py.Normal tt) →
  interceptedBlobs (capture_blob_images output_dir w).1 = [] ∧
  capture_blob_images output_dir (capture_blob_images output_dir w).1
    = ((capture_blob_images output_dir w).1, 0).
Proof.
  intros Hloop.
  assert (capture_blob_images output_dir w =
          (clear_interceptedBlobs (world fr), captured_count fr)) as ->.
  { unfold capture_blob_images, capture_blob_images_body, capture_blob_images_try.
    unfold Py.try_except, Py.bind, Py.gets, Py.modify, Py.ret. cbn.
    by rewrite Hloop. }
  done.
Qed.

End BlobPasses.

(** * Further properties of runs *)

Section RunShape.

Context `{Platform}.
Variable output_dir : string.
Variable pg : Page.

(** X9: neither collector removes anything from [driver.requests], and the
    network collector leaves the hook buffer alone: after a collection pass
    the log is the old log followed by the page's new exchanges, so every
    pass goes over the whole log again. *)
Theorem collectors_keep_the_request_log w :
  requests (capture_network_images output_dir w).1 = requests w ∧
  interceptedBlobs (capture_network_images output_dir w).1 = interceptedBlobs w ∧
  requests (capture_blob_images output_dir w).1 = requests w ∧
  requests (collection_pass output_dir pg w) =
    requests w ++ new_requests (activity pg (passes w)).
Proof.
  assert (∀ w0, requests (capture_network_images output_dir w0).1 = requests w0 ∧
                interceptedBlobs (capture_network_images output_dir w0).1
                  = interceptedBlobs w0) as Hnet.
  { intros w0. pose proof (capture_network_images_effects output_dir w0) as Heff.
    by apply item_effects_frame in Heff as (? & ? & _). }
  assert (∀ w0, requests (capture_blob_images output_dir w0).1 = requests w0) as Hblob.
  { intros w0. destruct (capture_blob_images_effects output_dir w0) as (w1 & Heff & Hw).
    apply item_effects_frame in Heff as (Hr & _ & _).
    by destruct Hw as [-> | ->]. }
  split_and!; [apply Hnet|apply Hnet|apply Hblob|].
  unfold collection_pass.
  pose proof (Hnet (page_activity pg w)) as [Hn _].
  destruct (capture_network_images _ _) as [w1 network_count]; cbn in Hn.
  pose proof (Hblob w1) as Hb.
  destruct (capture_blob_images _ _) as [w2 blob_count]; cbn in Hb.
  cbn. by rewrite Hb, Hn.
Qed.

(** X10: a collection pass and a whole run only add: the dedup set after
    contains the set before, the files before are a prefix of the files
    after, the image counter does not decrease. *)
Theorem run_only_adds max_scrolls w :
  grows w (collection_pass output_dir pg w) ∧
  grows w (loop_world (scroll_and_capture output_dir pg max_scrolls w)).
Proof.
  split.
  - eapply evolves_grows, collection_pass_evolves.
  - destruct (scroll_and_capture_passes output_dir pg max_scrolls w) as (n & _ & ->).
    eapply evolves_grows, iter_collection_pass_evolves.
Qed.

(** X11: the total printed on line 296, [len(self.captured_blobs)], is at
    least the number of files the run wrote (it also counts the bodies
    whose hash was recorded and that were then not saved). *)
Theorem printed_total_bounds_files max_scrolls :
  let w := loop_world (scroll_and_capture output_dir pg max_scrolls fresh_world) in
  length (files w) ≤ size (captured_blobs w).
Proof.
  intros w. pose proof (Inv_scroll_and_capture output_dir pg max_scrolls) as Hinv.
  fold w in Hinv. destruct Hinv as [_ _ Hrec Hnd].
  rewrite <- (length_fmap image_hash), <- (size_list_to_set (C:=gset string)) by done.
  apply subseteq_size. intros h Hh. apply elem_of_list_to_set in Hh.
  apply list_elem_of_fmap in Hh as (f & -> & Hf). by apply Hrec.
Qed.


(** the loop from any state below the cap: [k] turns, the offset advanced by
    [1000 * k], the counter advanced by [k] or, after a break, by [k - 1] *)
Lemma scroll_loop_shape max_scrolls st :
  scroll_count st ≤ max_scrolls →
  ∃ k, loop_world (scroll_loop output_dir pg max_scrolls st) =
         Nat.iter k (collection_pass output_dir pg) (loop_world st) ∧
       scroll_height (scroll_loop output_dir pg max_scrolls st) =
         (scroll_height st + HEIGHT_PER_SCROLL * Z.of_nat k)%Z ∧
       scroll_count (scroll_loop output_dir pg max_scrolls st) ≤ max_scrolls ∧
       (scroll_count st + k = scroll_count (scroll_loop output_dir pg max_scrolls st) ∨
        scroll_count st + k = scroll_count (scroll_loop output_dir pg max_scrolls st) + 1).
Proof.
  unfold HEIGHT_PER_SCROLL.
  remember (max_scrolls - scroll_count st) as n eqn:Hn. revert st Hn.
  induction n as [|n IH]; intros st Hn Hle; rewrite scroll_loop_turn;
    unfold HEIGHT_PER_SCROLL.
  - replace (scroll_count st <? max_scrolls) with false
      by (symmetry; apply Nat.ltb_ge; lia).
    exists 0. split_and!; [done|lia|done|lia].
  - replace (scroll_count st <? max_scrolls) with true
      by (symmetry; apply Nat.ltb_lt; lia).
    cbn zeta. destruct (_ >=? _)%Z.
    + exists 1. cbn. split_and!; [done|lia|lia|lia].
    + match goal with
      | |- context [scroll_loop _ _ _ ?st'] =>
          destruct (IH st') as (k & Hw & Hh & Hc & Hk); [cbn; lia|cbn; lia|]
      end.
      exists (S k). cbn [loop_world scroll_height scroll_count] in *.
      split_and!; [|lia|lia|lia].
      rewrite Hw. by rewrite Nat.iter_succ_r.
Qed.

(** X13: at the end of a run started with offset 0, the scroll offset is
    1000 times the number of turns the loop made; [scroll_count] is at most
    the cap and is that number of turns, or one less when the loop ended by
    [break]; the run made one pass per turn and the final pass. *)
Theorem scroll_offset_counts_loop_turns max_scrolls w :
  let r := scroll_and_capture output_dir pg max_scrolls w in
  ∃ turns,
    scroll_height r = (HEIGHT_PER_SCROLL * Z.of_nat turns)%Z ∧
    passes (loop_world r) = passes w + turns + 1 ∧
    scroll_count r ≤ max_scrolls ∧
    (turns = scroll_count r ∨ turns = scroll_count r + 1).
Proof.
  intros r. subst r. unfold scroll_and_capture.
  destruct (scroll_loop_shape max_scrolls
              (mkLoop w (initial_scrollHeight pg) 0 0%Z) ltac:(cbn; lia))
    as (k & Hw & Hh & Hc & Hk).
  cbn [loop_world scroll_height scroll_count] in *.
  exists k. split_and!; [lia| |done|lia].
  rewrite Hw, collection_pass_passes, iter_collection_pass_passes. lia.
Qed.

(** the loop when the measured height stays ahead of the offset up to the
    cap *)
Lemma scroll_loop_to_cap max_scrolls d st :
  scroll_count st + d = max_scrolls →
  (∀ i, i < d →
     (scroll_height st + HEIGHT_PER_SCROLL * (Z.of_nat i + 1)
      < scrollHeight pg (scroll_count st + i))%Z) →
  loop_world (scroll_loop output_dir pg max_scrolls st) =
    Nat.iter d (collection_pass output_dir pg) (loop_world st) ∧
  scroll_count (scroll_loop output_dir pg max_scrolls st) = max_scrolls ∧
  scroll_height (scroll_loop output_dir pg max_scrolls st) =
    (scroll_height st + HEIGHT_PER_SCROLL * Z.of_nat d)%Z.
Proof.
  unfold HEIGHT_PER_SCROLL.
  revert st. induction d as [|d IH]; intros st Hcap Hgrow;
    rewrite scroll_loop_turn; unfold HEIGHT_PER_SCROLL.
  - replace (scroll_count st <? max_scrolls) with false
      by (symmetry; apply Nat.ltb_ge; lia).
    split_and!; [done|lia|lia].
  - replace (scroll_count st <? max_scrolls) with true
      by (symmetry; apply Nat.ltb_lt; lia).
    cbn zeta.
    pose proof (Hgrow 0 ltac:(lia)) as H0. rewrite Nat.add_0_r in H0.
    replace (_ >=? _)%Z with false
      by (symmetry; rewrite Z.geb_leb; apply Z.leb_gt; lia).
    match goal with
    | |- context [scroll_loop _ _ _ ?st'] =>
        destruct (IH st') as (Hw & Hc & Hh)
    end.
    + cbn. lia.
    + intros i Hi. specialize (Hgrow (S i) ltac:(lia)). cbn.
      replace (scroll_count st + 1 + i) with (scroll_count st + S i) by lia. lia.
    + cbn [loop_world scroll_height scroll_count] in *.
      split_and!; [|done|lia].
      rewrite Hw. by rewrite Nat.iter_succ_r.
Qed.

(** X14: when in every turn up to the cap the measured height is greater
    than the offset, the loop ends by its condition, not by [break]:
    [scroll_count] reaches [max_scrolls], the offset is
    [1000 * max_scrolls], and the run makes exactly [max_scrolls + 1]
    passes. *)
Theorem scroll_and_capture_runs_to_the_cap max_scrolls w :
  (∀ i, i < max_scrolls →
     (HEIGHT_PER_SCROLL * (Z.of_nat i + 1) < scrollHeight pg i)%Z) →
  let r := scroll_and_capture output_dir pg max_scrolls w in
  scroll_count r = max_scrolls ∧
  scroll_height r = (HEIGHT_PER_SCROLL * Z.of_nat max_scrolls)%Z ∧
  loop_world r = Nat.iter (max_scrolls + 1) (collection_pass output_dir pg) w.
Proof.
  intros Hgrow r. subst r. unfold scroll_and_capture.
  destruct (scroll_loop_to_cap max_scrolls max_scrolls
              (mkLoop w (initial_scrollHeight pg) 0 0%Z)) as (Hw & Hc & Hh).
  - done.
  - intros i Hi. cbn. specialize (Hgrow i Hi). lia.
  - cbn [loop_world scroll_height scroll_count] in *.
    split_and!; [done|lia|].
    rewrite Hw, Nat.add_1_r. done.
Qed.

End RunShape.

Section BlobEntries.

Context `{Platform}.
Variable output_dir : string.

(** X15: an unseen image entry at the head of the buffer that PIL cannot
    open ends the blob pass with only its hash recorded (no file, the
    buffer kept, 0 returned); in the pass after that the entry is skipped
    as seen, so the loop over the same buffer goes on with the entries
    behind it. *)
Theorem undecodable_entry_is_skipped_in_the_next_pass w blob rest d b64 image_data :
  interceptedBlobs w = blob :: rest →
  is_image_data_url blob = Some d →
  split "," d !! 1 = Some b64 →
  b64decode b64 = Some image_data →
  md5_hexdigest image_data ∉ captured_blobs w →
  Image_open image_data = false →
  let w1 := add_hash (md5_hexdigest image_data) w in
  capture_blob_images output_dir w = (w1, 0) ∧
  interceptedBlobs w1 = blob :: rest ∧
  Py.for_each (blob :: rest) (blob_iteration output_dir) (mkFrame w1 0) =
  Py.for_each rest (blob_iteration output_dir) (mkFrame w1 0).
Proof.
  intros Hbuf Hurl Hsplit Hdec Hnew Hopen w1.
  split_and!.
  - by eapply capture_blob_images_stops_at_undecodable.
  - done.
  - cbn [Py.for_each]. unfold Py.bind.
    rewrite (blob_iteration_seen output_dir blob d b64 image_data); try done.
    subst w1. cbn. set_solver.
Qed.

End BlobEntries.

(** ** Data URLs *)

Lemma comma_free_app a b : comma_free a → comma_free b → comma_free (a +:+ b).
Proof.
  intros Ha Hb. induction a as [|c a IH]; [done|].
  destruct Ha as [Hc Ha]. split; [done|by apply IH].
Qed.

Lemma split_comma_free s : comma_free s → split "," s = [s].
Proof.
  induction s as [|c s IH]; [done|]. intros [Hc Hs]. cbn [split].
  apply Ascii.eqb_neq in Hc. rewrite Hc, IH; done.
Qed.

Lemma split_at_first_comma a b :
  comma_free a → split "," (a +:+ String "," b) = a :: split "," b.
Proof.
  induction a as [|c a IH]; [done|]. intros [Hc Ha].
  change (String c a +:+ String "," b) with (String c (a +:+ String "," b)).
  cbn [split]. apply Ascii.eqb_neq in Hc. by rewrite Hc, IH.
Qed.

(** X16: for an entry whose data URL is data:image<rest of the type>
    followed by ";base64," and the base64 text, with no comma in the type
    or in the text, the test of line 197 passes and line 199 extracts
    exactly the base64 text. *)
Theorem data_url_base64_text_is_extracted mime text t :
  comma_free mime → comma_free text →
  is_image_data_url
    (mkBlob (Some ("data:image" +:+ mime +:+ ";base64," +:+ text)) t)
    = Some ("data:image" +:+ mime +:+ ";base64," +:+ text) ∧
  split "," ("data:image" +:+ mime +:+ ";base64," +:+ text) !! 1 = Some text.
Proof.
  intros Hmime Htext. split.
  - unfold is_image_data_url. cbn [data].
    assert (startswith "data:image" ("data:image" +:+ mime +:+ ";base64," +:+ text)
            = true) as -> by (apply startswith_spec; by eexists).
    assert (("data:image" +:+ mime +:+ ";base64," +:+ text =? "")%string = false)
      as -> by by apply String.eqb_neq.
    done.
  - replace ("data:image" +:+ mime +:+ ";base64," +:+ text)
      with (("data:image" +:+ mime +:+ ";base64") +:+ String "," text).
    + rewrite split_at_first_comma, split_comma_free; [done|done|].
      apply (comma_free_app "data:image"); [by repeat split|].
      apply comma_free_app; [done|by repeat split].
    + by rewrite !string_app_assoc.
Qed.

(** * [main] *)


(** ** The further properties at concrete inputs *)


Lemma request_without_image_response_is_ignored_witness :
  (∃ resp, response html_request = Some resp ∧
           startswith "image/" (headers_get_content_type resp) = false) ∧
  network_iteration (H:=sample_platform) "./cache" html_request fresh_frame
    = (fresh_frame, Py.Normal tt).
Proof.
  assert (∃ resp, response html_request = Some resp ∧
                  startswith "image/" (headers_get_content_type resp) = false) as Hr.
  { by eexists. }
  split; [done|].
  apply (request_without_image_response_is_ignored (H:=sample_platform)
           "./cache" html_request (or_intror Hr)).
Defined.

Lemma same_payload_skipped_by_other_collector_witness :
  is_image_response (exchange "image/png" "B1") = Some png_response ∧
  is_image_data_url png_blob = Some "data:image/png;base64,B1" ∧
  split "," "data:image/png;base64,B1" !! 1 = Some "B1" ∧
  b64decode (Platform:=sample_platform) "B1" = Some (body png_response) ∧
  blob_iteration (H:=sample_platform) "./cache" png_blob
    (network_iteration (H:=sample_platform) "./cache"
       (exchange "image/png" "B1") fresh_frame).1
  = ((network_iteration (H:=sample_platform) "./cache"
        (exchange "image/png" "B1") fresh_frame).1, Py.Normal tt).
Proof.
  split_and!; [reflexivity|reflexivity|reflexivity|reflexivity|].
  apply (same_payload_skipped_by_other_collector (H:=sample_platform) "./cache"
           (exchange "image/png" "B1") png_response png_blob
           "data:image/png;base64,B1" "B1" fresh_frame
           eq_refl eq_refl eq_refl eq_refl).
Defined.

Lemma malformed_image_entry_blocks_blob_passes_witness :
  is_image_data_url comma_less_blob = Some "data:image/png" ∧
  split "," "data:image/png" !! 1 = None ∧
  capture_blob_images (H:=sample_platform) "./cache"
    (world_with [] [comma_less_blob; gif_blob])
  = (world_with [] [comma_less_blob; gif_blob], 0).
Proof.
  split_and!; [reflexivity|reflexivity|].
  apply (malformed_image_entry_blocks_blob_passes (H:=sample_platform) "./cache"
           (world_with [] [comma_less_blob; gif_blob]) comma_less_blob [gif_blob]
           "data:image/png" eq_refl eq_refl (or_introl eq_refl)).
Defined.

Lemma capture_blob_images_then_empty_witness :
  Py.for_each [png_blob; text_blob] (blob_iteration (H:=sample_platform) "./cache")
    (mkFrame (world_with [] [png_blob; text_blob]) 0)
  = ((Py.for_each [png_blob; text_blob] (blob_iteration (H:=sample_platform) "./cache")
        (mkFrame (world_with [] [png_blob; text_blob]) 0)).1, Py.Normal tt) ∧
  interceptedBlobs
    (capture_blob_images (H:=sample_platform) "./cache"
       (world_with [] [png_blob; text_blob])).1 = [].
Proof.
  assert (Py.for_each [png_blob; text_blob]
            (blob_iteration (H:=sample_platform) "./cache")
            (mkFrame (world_with [] [png_blob; text_blob]) 0)
          = ((Py.for_each [png_blob; text_blob]
                (blob_iteration (H:=sample_platform) "./cache")
                (mkFrame (world_with [] [png_blob; text_blob]) 0)).1, Py.Normal tt))
    as Hloop by reflexivity.
  split; [done|].
  apply (capture_blob_images_then_empty (H:=sample_platform) "./cache"
           (world_with [] [png_blob; text_blob]) _ Hloop).
Defined.

Lemma scroll_and_capture_runs_to_the_cap_witness :
  (∀ i, i < 3 →
     (HEIGHT_PER_SCROLL * (Z.of_nat i + 1) < scrollHeight endless_page i)%Z) ∧
  scroll_count
    (scroll_and_capture (H:=sample_platform) "./cache" endless_page 3 fresh_world) = 3.
Proof.
  assert (∀ i, i < 3 →
    (HEIGHT_PER_SCROLL * (Z.of_nat i + 1) < scrollHeight endless_page i)%Z) as Hgrow.
  { intros i Hi. unfold HEIGHT_PER_SCROLL. cbn. lia. }
  split; [done|].
  apply (scroll_and_capture_runs_to_the_cap (H:=sample_platform)
           "./cache" endless_page 3 fresh_world Hgrow).
Defined.

Lemma undecodable_entry_is_skipped_in_the_next_pass_witness :
  is_image_data_url svg_blob = Some "data:image/svg+xml;base64,bad" ∧
  split "," "data:image/svg+xml;base64,bad" !! 1 = Some "bad" ∧
  b64decode (Platform:=sample_platform) "bad" = Some (bytes "bad") ∧
  (md5_hexdigest (Platform:=sample_platform) (bytes "bad")
     ∉ captured_blobs (world_with [] [svg_blob; gif_blob])) ∧
  Image_open (Platform:=sample_platform) (bytes "bad") = false ∧
  capture_blob_images (H:=sample_platform) "./cache"
    (world_with [] [svg_blob; gif_blob])
  = (add_hash (md5_hexdigest (Platform:=sample_platform) (bytes "bad"))
       (world_with [] [svg_blob; gif_blob]), 0).
Proof.
  assert (md5_hexdigest (Platform:=sample_platform) (bytes "bad")
            ∉ captured_blobs (world_with [] [svg_blob; gif_blob])) as Hnew
    by apply not_elem_of_empty.
  split_and!; [reflexivity|reflexivity|reflexivity|done|reflexivity|].
  apply (undecodable_entry_is_skipped_in_the_next_pass (H:=sample_platform)
           "./cache" (world_with [] [svg_blob; gif_blob]) svg_blob [gif_blob]
           "data:image/svg+xml;base64,bad" "bad" (bytes "bad")
           eq_refl eq_refl eq_refl eq_refl Hnew eq_refl).
Defined.

Lemma data_url_base64_text_is_extracted_witness :
  comma_free "/png" ∧ comma_free "B1" ∧
  split "," ("data:image" +:+ "/png" +:+ ";base64," +:+ "B1") !! 1 = Some "B1".
Proof.
  assert (comma_free "/png") as Hmime by (by repeat split).
  assert (comma_free "B1") as Htext by (by repeat split).
  split_and!; [done|done|].
  apply (data_url_base64_text_is_extracted "/png" "B1" "image/png" Hmime Htext).
Defined.
